(** * Configuration store and admin handlers of assistant_gateway_admin

    A shallow embedding of [internal/config] (entity model, [MySQLStore])
    and of [internal/handler] (backend, route and history handlers).

    Modelling conventions:
    - a request body is the JSON value the decoder reads: [raw_body] is
      the members of the object in document order ([Some []] for the
      literal [null], which decodes like [{}]), and [None] for a body that
      is not valid JSON or not an object;
    - [json.Decoder.Decode] into a struct applies the members in document
      order: a key selects the field whose tag equals it or folds to the
      same name ([foldName]); a later member overrides an earlier one, a
      [null] member changes nothing, a value of the wrong type fails the
      decode, and a key of no field is skipped;
    - decoding into a [map[string]interface{}] keeps the last of duplicate
      keys and turns every number into the nearest float64 (a number
      beyond the float64 range fails the decode); [json.Marshal] of the
      map writes the keys in byte order and each float64 as its shortest
      decimal (the update handlers decode their body this way and then
      decode the marshalled map into the struct);
    - Go [uint] and [int] fields are [Z] with the checks of
      [strconv.ParseUint] and [strconv.ParseInt];
    - the value of [time.Time] is a [Z]; the zero time is [0]; parsing a
      time string is the section variable [parse_time] (time strings are
      taken to carry no JSON escape, so that their decoded value is the
      text [Time.UnmarshalJSON] parses);
    - SQL [CURRENT_TIMESTAMP] and Go [time.Now()] are two clocks with no
      relation between them: [sql_clock n] is the timestamp, at the
      column's precision, of the n-th statement that changes rows, and
      [go_clock n] is the n-th reading of [time.Now()];
    - [RowsAffected] counts the rows an [UPDATE] changes (the driver's
      default, without [clientFoundRows]); a statement that changes no row
      leaves the state as it was;
    - the tables (no schema is in the repository) give [created_at] and
      [updated_at] the default [CURRENT_TIMESTAMP], and their ids are
      [AUTO_INCREMENT];
    - the DSN sets [parseTime], so timestamps scan into [time.Time];
    - a storage (driver) failure of each store call is decided by a fault
      oracle [Faults]; a failing call leaves the state unchanged;
    - [json.Marshal] of an entity snapshot is lossless: a history row
      keeps the entity itself; a nil snapshot is bound as SQL [NULL]. *)

From Stdlib Require Import ZArith Ascii String List Sorted Lia.
From stdpp Require Import base gmap strings list.

Import ListNotations.
Open Scope Z_scope.

(* ------------------------------------------------------------------ *)
(** ** JSON values *)

(** A JSON value as the decoder reads it. A number keeps its literal
    form: [JInt neg n] is a literal without fraction and exponent, of
    value [n] or [-n]; [JFrac neg m e] is a literal with a fraction or an
    exponent, of value [m*10^e] or its negation. A string is the decoded
    Go string. An object keeps its members in document order. *)
#[warnings="-register-all"]
Inductive json :=
  | JNull
  | JBool (b : bool)
  | JInt (neg : bool) (n : N)
  | JFrac (neg : bool) (m : N) (e : Z)
  | JStr (s : string)
  | JArr (l : list json)
  | JObj (l : list (string * json)).

(** The members of a JSON object, in document order. *)
Abbreviation object := (list (string * json)).

(** A Go [map[string]interface{}] decoded from an object, each value
    written as [json.Marshal] writes it back. *)
Abbreviation payload := (gmap string json).

(* ------------------------------------------------------------------ *)
(** ** [strconv]: float64 parsing and shortest formatting *)

(** A positive float64 is [M*2^E] with [0 < M < 2^53] and
    [-1074 <= E <= 971], [M >= 2^52] unless [E = -1074]; zero is [(0, 0)].
    A rational [a/b] with [b > 0] is written as the two integers. *)

(** [a/b <= c/d] for positive denominators. *)
Definition qle (a b c d : Z) : bool := a * d <=? c * b.

(** [a/b] rounded to an integer, ties to even. *)
Definition div_round_even (a b : Z) : Z :=
  let q := a / b in
  let r := a mod b in
  if 2 * r <? b then q
  else if b <? 2 * r then q + 1
  else if Z.even q then q else q + 1.

(** [strconv.ParseFloat(s, 64)] of the magnitude [m*10^e] of a literal:
    the nearest float64, ties to even; [None] for [ErrRange] (beyond the
    largest finite float64). A value that rounds below the smallest
    subnormal gives zero, without error. *)
Definition ParseFloat (m e : Z) : option (Z * Z) :=
  if m =? 0 then Some (0, 0) else
  let num := m * 10 ^ Z.max e 0 in
  let den := 10 ^ Z.max (- e) 0 in
  let L0 := Z.log2 num - Z.log2 den in
  (* [L] is the floor of [log2 (num/den)] *)
  let L := if qle (2 ^ Z.max L0 0) (2 ^ Z.max (- L0) 0) num den then L0 else L0 - 1 in
  let E := Z.max (L - 52) (-1074) in
  let M := div_round_even (num * 2 ^ Z.max (- E) 0) (den * 2 ^ Z.max E 0) in
  let '(M, E) := if M =? 2 ^ 53 then (2 ^ 52, E + 1) else (M, E) in
  if M =? 0 then Some (0, 0)
  else if 971 <? E then None
  else Some (M, E).

(** The floor of [log10 n] for [1 <= n]. *)
Fixpoint ilog10 (fuel : nat) (n : Z) : Z :=
  match fuel with
  | O => 0
  | S f => if n <? 10 then 0 else 1 + ilog10 f (n / 10)
  end.

Definition log10_floor (n : Z) : Z := ilog10 (S (Z.to_nat (Z.log2 n))) n.

(** The floor of [log10 (a/b)] for positive [a] and [b]. *)
Definition qlog10 (a b : Z) : Z :=
  let K0 := log10_floor a - log10_floor b in
  if qle (10 ^ Z.max K0 0) (10 ^ Z.max (- K0) 0) a b then K0 else K0 - 1.

(** Does [D*10^k] lie in the rounding interval of [M*2^E], the reals
    that parse back to it? Its bounds are the midpoints to the
    neighbours (the gap below is halved at a power of two above the
    subnormals) and belong to it when [M] is even. *)
Definition in_interval (M E D k : Z) : bool :=
  let g := if (M =? 2 ^ 52) && (-1074 <? E) then 1 else 2 in
  let u_num := 2 ^ Z.max (E - 2) 0 in
  let u_den := 2 ^ Z.max (2 - E) 0 in
  let c_num := D * 10 ^ Z.max k 0 in
  let c_den := 10 ^ Z.max (- k) 0 in
  let lo := (4 * M - g) * u_num in
  let hi := (4 * M + 2) * u_num in
  if Z.even M then qle lo u_den c_num c_den && qle c_num c_den hi u_den
  else negb (qle c_num c_den lo u_den) && negb (qle hi u_den c_num c_den).

(** The two [n]-digit decimals [D*10^k] and [(D+1)*10^k] around
    [M*2^E], and how [M*2^E] compares with their midpoint. *)
Definition candidates (M E n : Z) : Z * Z * comparison :=
  let xn := M * 2 ^ Z.max E 0 in
  let xd := 2 ^ Z.max (- E) 0 in
  let k := qlog10 xn xd - n + 1 in
  let D := (xn * 10 ^ Z.max (- k) 0) / (xd * 10 ^ Z.max k 0) in
  (D, k, Z.compare (2 * xn * 10 ^ Z.max (- k) 0) ((2 * D + 1) * xd * 10 ^ Z.max k 0)).

(** The nearer of the two candidates, ties to even. *)
Definition nearest (D : Z) (c : comparison) : Z :=
  match c with
  | Lt => D
  | Gt => D + 1
  | Eq => if Z.even D then D else D + 1
  end.

(** The [n]-digit decimal that [strconv] picks for [M*2^E], if one lies
    in the rounding interval: the nearest such decimal. *)
Definition shortest_at (M E n : Z) : option (Z * Z) :=
  let '(D, k, c) := candidates M E n in
  match in_interval M E D k, in_interval M E (D + 1) k with
  | true, true => Some (nearest D c, k)
  | true, false => Some (D, k)
  | false, true => Some (D + 1, k)
  | false, false => None
  end.

(** Fewer digits first; 17 digits always identify a float64. *)
Fixpoint shortest_from (fuel : nat) (M E n : Z) : Z * Z :=
  match fuel with
  | O => let '(D, k, c) := candidates M E n in (nearest D c, k)
  | S f =>
      match shortest_at M E n with
      | Some r => r
      | None => shortest_from f M E (n + 1)
      end
  end.

(** Drop the trailing zeros of the digits. *)
Fixpoint strip_zeros (fuel : nat) (D k : Z) : Z * Z :=
  match fuel with
  | O => (D, k)
  | S f => if (D mod 10 =? 0) && (0 <? D) then strip_zeros f (D / 10) (k + 1) else (D, k)
  end.

(** The shortest decimal [D*10^k] of a positive float64
    ([strconv.FormatFloat(f, _, -1, 64)]). *)
Definition shortest (M E : Z) : Z * Z :=
  let '(D, k) := shortest_from 16 M E 1 in strip_zeros 20 D k.

(** [json.Marshal] of the float64 [M*2^E] (negated when [neg]), read back
    as a literal: [strconv.AppendFloat] with format ['e'] for
    [abs < 1e-6] or [abs >= 1e21] and ['f'] otherwise; zero prints as [0]
    (or [-0]). *)
Definition marshal_float (neg : bool) (f : Z * Z) : json :=
  let '(M, E) := f in
  if M =? 0 then JInt neg 0 else
  let '(D, k) := shortest M E in
  let xn := M * 2 ^ Z.max E 0 in
  let xd := 2 ^ Z.max (- E) 0 in
  let small := match ParseFloat 1 (-6) with
               | Some (gM, gE) => negb (qle (gM * 2 ^ Z.max gE 0) (2 ^ Z.max (- gE) 0) xn xd)
               | None => false
               end in
  let large := qle (10 ^ 21) 1 xn xd in
  if small || large then JFrac neg (Z.to_N D) k
  else if 0 <=? k then JInt neg (Z.to_N (D * 10 ^ k))
  else JFrac neg (Z.to_N D) k.

(** A number literal decoded into an [interface{}] ([float64]) and
    marshalled again; [None] for the [UnmarshalTypeError] of a number
    beyond the float64 range. *)
Definition number_interface (neg : bool) (m e : Z) : option json :=
  option_map (marshal_float neg) (ParseFloat m e).

(* ------------------------------------------------------------------ *)
(** ** [encoding/json]: maps *)

(** [json.Marshal] of a map: the keys in increasing byte order. *)
Fixpoint insert_key (kv : string * json) (l : object) : object :=
  match l with
  | [] => [kv]
  | kv' :: l' => if String.leb (fst kv) (fst kv') then kv :: l else kv' :: insert_key kv l'
  end.

Fixpoint sort_keys (l : object) : object :=
  match l with
  | [] => []
  | kv :: l' => insert_key kv (sort_keys l')
  end.

Definition marshal_map (m : payload) : object := sort_keys (map_to_list m).

(** The map of the members: a later duplicate key replaces the earlier. *)
Definition map_of_members (l : object) : payload :=
  fold_left (fun m kv => <[fst kv := snd kv]> m) l ∅.

(** A JSON value decoded into an [interface{}] and marshalled again:
    numbers become float64, objects become maps; [None] when a number is
    beyond the float64 range. *)
Fixpoint to_interface (j : json) : option json :=
  match j with
  | JInt neg n => number_interface neg (Z.of_N n) 0
  | JFrac neg m e => number_interface neg (Z.of_N m) e
  | JArr l =>
      let fix elems (l : list json) : option (list json) :=
        match l with
        | [] => Some []
        | x :: l' =>
            match to_interface x, elems l' with
            | Some y, Some l'' => Some (y :: l'')
            | _, _ => None
            end
        end in
      option_map JArr (elems l)
  | JObj l =>
      let fix members (l : object) : option object :=
        match l with
        | [] => Some []
        | (k, x) :: l' =>
            match to_interface x, members l' with
            | Some y, Some l'' => Some ((k, y) :: l'')
            | _, _ => None
            end
        end in
      option_map (fun l' => JObj (marshal_map (map_of_members l'))) (members l)
  | _ => Some j
  end.

Fixpoint interface_members (l : object) : option object :=
  match l with
  | [] => Some []
  | (k, x) :: l' =>
      match to_interface x, interface_members l' with
      | Some y, Some l'' => Some ((k, y) :: l'')
      | _, _ => None
      end
  end.

(** [Decode] of an object into a [map[string]interface{}]. *)
Definition go_map (l : object) : option payload :=
  option_map map_of_members (interface_members l).

(* ------------------------------------------------------------------ *)
(** ** [encoding/json]: field names *)

Definition upper_ascii (c : ascii) : ascii :=
  let n := nat_of_ascii c in
  if (97 <=? n)%nat && (n <=? 122)%nat then ascii_of_nat (n - 32) else c.

(** [foldName] as far as it decides matches with ASCII tags: ASCII
    letters upper-cased, and the four runes that fold to ASCII: U+0130 and
    U+0131 (bytes C4 B0, C4 B1) to [I], U+017F (C5 BF) to [S] and U+212A
    (E2 84 AA) to [K]. Every other non-ASCII rune folds to a non-ASCII
    rune and keeps its bytes here. *)
Fixpoint fold_bytes (s : string) : string :=
  match s with
  | EmptyString => EmptyString
  | String c s' =>
      let n := nat_of_ascii c in
      if (n <? 128)%nat then String (upper_ascii c) (fold_bytes s')
      else
        match s' with
        | String c2 s2 =>
            let n2 := nat_of_ascii c2 in
            if (n =? 196)%nat && ((n2 =? 176)%nat || (n2 =? 177)%nat)
            then String "I" (fold_bytes s2)
            else if (n =? 197)%nat && (n2 =? 191)%nat
            then String "S" (fold_bytes s2)
            else
              match s2 with
              | String c3 s3 =>
                  if (n =? 226)%nat && (n2 =? 132)%nat && (nat_of_ascii c3 =? 170)%nat
                  then String "K" (fold_bytes s3)
                  else String c (fold_bytes s')
              | EmptyString => String c (fold_bytes s')
              end
        | EmptyString => String c EmptyString
        end
  end.

Definition foldName (s : string) : string := fold_bytes s.

(** Does the object key select the field with this (ASCII) tag? The
    decoder tries the exact name, then the folded one. *)
Definition field_is (key tag : string) : bool := String.eqb (foldName key) (foldName tag).

(* ------------------------------------------------------------------ *)
(** ** The entity model (part_000: config types) *)

Definition zero_time : Z := 0.

Module Backend.
Record t := mk {
  ID : Z;
  Name : string;
  Addr : string;
  Description : string;
  Enabled : bool;
  CreatedAt : Z;
  UpdatedAt : Z
}.
End Backend.

Module Route.
Record t := mk {
  ID : Z;
  HTTPMethod : string;
  HTTPPattern : string;
  BackendName : string;
  BackendService : string;
  BackendMethod : string;
  TimeoutMS : Z;
  Description : string;
  Enabled : bool;
  CreatedAt : Z;
  UpdatedAt : Z
}.
End Route.

(** The serialized snapshot kept in [old_value] / [new_value]. *)
Inductive Snapshot :=
  | SBackend (b : Backend.t)
  | SRoute (r : Route.t).

Module ConfigHistory.
Record t := mk {
  ID : Z;
  ConfigType : string;
  ConfigID : option Z;
  Operation : string;
  OldValue : option Snapshot;
  NewValue : option Snapshot;
  Operator : string;
  CreatedAt : Z
}.
End ConfigHistory.

(** Field setters used where the Go code assigns a struct field. *)
Definition b_set_ID (v : Z) (b : Backend.t) : Backend.t :=
  Backend.mk v (Backend.Name b) (Backend.Addr b) (Backend.Description b)
    (Backend.Enabled b) (Backend.CreatedAt b) (Backend.UpdatedAt b).
Definition b_set_Name (v : string) (b : Backend.t) : Backend.t :=
  Backend.mk (Backend.ID b) v (Backend.Addr b) (Backend.Description b)
    (Backend.Enabled b) (Backend.CreatedAt b) (Backend.UpdatedAt b).
Definition b_set_Addr (v : string) (b : Backend.t) : Backend.t :=
  Backend.mk (Backend.ID b) (Backend.Name b) v (Backend.Description b)
    (Backend.Enabled b) (Backend.CreatedAt b) (Backend.UpdatedAt b).
Definition b_set_Description (v : string) (b : Backend.t) : Backend.t :=
  Backend.mk (Backend.ID b) (Backend.Name b) (Backend.Addr b) v
    (Backend.Enabled b) (Backend.CreatedAt b) (Backend.UpdatedAt b).
Definition b_set_Enabled (v : bool) (b : Backend.t) : Backend.t :=
  Backend.mk (Backend.ID b) (Backend.Name b) (Backend.Addr b)
    (Backend.Description b) v (Backend.CreatedAt b) (Backend.UpdatedAt b).
Definition b_set_times (c u : Z) (b : Backend.t) : Backend.t :=
  Backend.mk (Backend.ID b) (Backend.Name b) (Backend.Addr b)
    (Backend.Description b) (Backend.Enabled b) c u.
Definition b_set_CreatedAt (c : Z) (b : Backend.t) : Backend.t :=
  b_set_times c (Backend.UpdatedAt b) b.
Definition b_set_UpdatedAt (u : Z) (b : Backend.t) : Backend.t :=
  b_set_times (Backend.CreatedAt b) u b.

Definition r_set_ID (v : Z) (r : Route.t) : Route.t :=
  Route.mk v (Route.HTTPMethod r) (Route.HTTPPattern r) (Route.BackendName r)
    (Route.BackendService r) (Route.BackendMethod r) (Route.TimeoutMS r)
    (Route.Description r) (Route.Enabled r) (Route.CreatedAt r) (Route.UpdatedAt r).
Definition r_set_HTTPMethod (v : string) (r : Route.t) : Route.t :=
  Route.mk (Route.ID r) v (Route.HTTPPattern r) (Route.BackendName r)
    (Route.BackendService r) (Route.BackendMethod r) (Route.TimeoutMS r)
    (Route.Description r) (Route.Enabled r) (Route.CreatedAt r) (Route.UpdatedAt r).
Definition r_set_HTTPPattern (v : string) (r : Route.t) : Route.t :=
  Route.mk (Route.ID r) (Route.HTTPMethod r) v (Route.BackendName r)
    (Route.BackendService r) (Route.BackendMethod r) (Route.TimeoutMS r)
    (Route.Description r) (Route.Enabled r) (Route.CreatedAt r) (Route.UpdatedAt r).
Definition r_set_BackendName (v : string) (r : Route.t) : Route.t :=
  Route.mk (Route.ID r) (Route.HTTPMethod r) (Route.HTTPPattern r) v
    (Route.BackendService r) (Route.BackendMethod r) (Route.TimeoutMS r)
    (Route.Description r) (Route.Enabled r) (Route.CreatedAt r) (Route.UpdatedAt r).
Definition r_set_BackendService (v : string) (r : Route.t) : Route.t :=
  Route.mk (Route.ID r) (Route.HTTPMethod r) (Route.HTTPPattern r) (Route.BackendName r)
    v (Route.BackendMethod r) (Route.TimeoutMS r)
    (Route.Description r) (Route.Enabled r) (Route.CreatedAt r) (Route.UpdatedAt r).
Definition r_set_BackendMethod (v : string) (r : Route.t) : Route.t :=
  Route.mk (Route.ID r) (Route.HTTPMethod r) (Route.HTTPPattern r) (Route.BackendName r)
    (Route.BackendService r) v (Route.TimeoutMS r)
    (Route.Description r) (Route.Enabled r) (Route.CreatedAt r) (Route.UpdatedAt r).
Definition r_set_TimeoutMS (v : Z) (r : Route.t) : Route.t :=
  Route.mk (Route.ID r) (Route.HTTPMethod r) (Route.HTTPPattern r) (Route.BackendName r)
    (Route.BackendService r) (Route.BackendMethod r) v
    (Route.Description r) (Route.Enabled r) (Route.CreatedAt r) (Route.UpdatedAt r).
Definition r_set_Description (v : string) (r : Route.t) : Route.t :=
  Route.mk (Route.ID r) (Route.HTTPMethod r) (Route.HTTPPattern r) (Route.BackendName r)
    (Route.BackendService r) (Route.BackendMethod r) (Route.TimeoutMS r)
    v (Route.Enabled r) (Route.CreatedAt r) (Route.UpdatedAt r).
Definition r_set_Enabled (v : bool) (r : Route.t) : Route.t :=
  Route.mk (Route.ID r) (Route.HTTPMethod r) (Route.HTTPPattern r) (Route.BackendName r)
    (Route.BackendService r) (Route.BackendMethod r) (Route.TimeoutMS r)
    (Route.Description r) v (Route.CreatedAt r) (Route.UpdatedAt r).
Definition r_set_times (c u : Z) (r : Route.t) : Route.t :=
  Route.mk (Route.ID r) (Route.HTTPMethod r) (Route.HTTPPattern r) (Route.BackendName r)
    (Route.BackendService r) (Route.BackendMethod r) (Route.TimeoutMS r)
    (Route.Description r) (Route.Enabled r) c u.
Definition r_set_CreatedAt (c : Z) (r : Route.t) : Route.t :=
  r_set_times c (Route.UpdatedAt r) r.
Definition r_set_UpdatedAt (u : Z) (r : Route.t) : Route.t :=
  r_set_times (Route.CreatedAt r) u r.

Definition zero_backend : Backend.t := Backend.mk 0 "" "" "" false zero_time zero_time.
Definition zero_route : Route.t := Route.mk 0 "" "" "" "" "" 0 "" false zero_time zero_time.

(* ------------------------------------------------------------------ *)
(** ** [encoding/json]: decoding an object into a struct *)

Section Decode.
Variable parse_time : string -> option Z.

Definition conv_string (j : json) : option string :=
  match j with JStr s => Some s | _ => None end.
Definition conv_bool (j : json) : option bool :=
  match j with JBool b => Some b | _ => None end.
(** [strconv.ParseUint(lit, 10, 64)]: no sign, fraction or exponent. *)
Definition conv_uint (j : json) : option Z :=
  match j with
  | JInt false n => if Z.of_N n <? 2 ^ 64 then Some (Z.of_N n) else None
  | _ => None
  end.
(** [strconv.ParseInt(lit, 10, 64)]: no fraction or exponent. *)
Definition conv_int (j : json) : option Z :=
  match j with
  | JInt neg n =>
      let z := if neg then - Z.of_N n else Z.of_N n in
      if (- 2 ^ 63 <=? z) && (z <? 2 ^ 63) then Some z else None
  | _ => None
  end.
(** [Time.UnmarshalJSON]: a JSON string, parsed as RFC 3339. *)
Definition conv_time (j : json) : option Z :=
  match j with JStr s => parse_time s | _ => None end.

(** Storing a member's value into a field: [null] leaves the field as it
    was (also for [time.Time], whose [UnmarshalJSON] ignores [null]). *)
Definition store_field {A T} (conv : json -> option A) (set : A -> T -> T)
    (j : json) (x : T) : option T :=
  match j with
  | JNull => Some x
  | _ => option_map (fun v => set v x) (conv j)
  end.

(** The members in document order, from the zero value; the first
    error fails the whole decode. *)
Definition decode_object {T} (member : string -> json -> T -> option T) (zero : T)
    (p : object) : option T :=
  fold_left (fun acc kv => match acc with
                           | Some x => member (fst kv) (snd kv) x
                           | None => None
                           end) p (Some zero).

Definition backend_member (key : string) (j : json) (b : Backend.t) : option Backend.t :=
  if field_is key "id" then store_field conv_uint b_set_ID j b
  else if field_is key "name" then store_field conv_string b_set_Name j b
  else if field_is key "addr" then store_field conv_string b_set_Addr j b
  else if field_is key "description" then store_field conv_string b_set_Description j b
  else if field_is key "enabled" then store_field conv_bool b_set_Enabled j b
  else if field_is key "created_at" then store_field conv_time b_set_CreatedAt j b
  else if field_is key "updated_at" then store_field conv_time b_set_UpdatedAt j b
  else Some b.

Definition decode_backend (p : object) : option Backend.t :=
  decode_object backend_member zero_backend p.

Definition route_member (key : string) (j : json) (r : Route.t) : option Route.t :=
  if field_is key "id" then store_field conv_uint r_set_ID j r
  else if field_is key "http_method" then store_field conv_string r_set_HTTPMethod j r
  else if field_is key "http_pattern" then store_field conv_string r_set_HTTPPattern j r
  else if field_is key "backend_name" then store_field conv_string r_set_BackendName j r
  else if field_is key "backend_service" then store_field conv_string r_set_BackendService j r
  else if field_is key "backend_method" then store_field conv_string r_set_BackendMethod j r
  else if field_is key "timeout_ms" then store_field conv_int r_set_TimeoutMS j r
  else if field_is key "description" then store_field conv_string r_set_Description j r
  else if field_is key "enabled" then store_field conv_bool r_set_Enabled j r
  else if field_is key "created_at" then store_field conv_time r_set_CreatedAt j r
  else if field_is key "updated_at" then store_field conv_time r_set_UpdatedAt j r
  else Some r.

Definition decode_route (p : object) : option Route.t :=
  decode_object route_member zero_route p.
End Decode.

(* ------------------------------------------------------------------ *)
(** ** The store state, its calls and the request *)

(** The three tables, their AUTO_INCREMENT counters and the two clocks:
    [sql_clock n] is the [CURRENT_TIMESTAMP] (at the columns' precision)
    of the statements that run after [n] statements have changed rows,
    [sql_ticks] the number of such statements so far; [go_clock n] is the
    value of the n-th [time.Now()] call, [go_reads] the number of calls
    so far. *)
Record DB := mkDB {
  backends : list Backend.t;
  routes : list Route.t;
  config_history : list ConfigHistory.t;
  backend_auto : Z;
  route_auto : Z;
  history_auto : Z;
  sql_clock : nat -> Z;
  sql_ticks : nat;
  go_clock : nat -> Z;
  go_reads : nat
}.

(** [CURRENT_TIMESTAMP] for the next statement. *)
Definition now (db : DB) : Z := sql_clock db (sql_ticks db).

Definition set_backends (l : list Backend.t) (db : DB) : DB :=
  mkDB l (routes db) (config_history db) (backend_auto db) (route_auto db)
    (history_auto db) (sql_clock db) (sql_ticks db) (go_clock db) (go_reads db).
Definition set_routes (l : list Route.t) (db : DB) : DB :=
  mkDB (backends db) l (config_history db) (backend_auto db) (route_auto db)
    (history_auto db) (sql_clock db) (sql_ticks db) (go_clock db) (go_reads db).
Definition set_config_history (l : list ConfigHistory.t) (db : DB) : DB :=
  mkDB (backends db) (routes db) l (backend_auto db) (route_auto db)
    (history_auto db) (sql_clock db) (sql_ticks db) (go_clock db) (go_reads db).
Definition set_backend_auto (a : Z) (db : DB) : DB :=
  mkDB (backends db) (routes db) (config_history db) a (route_auto db)
    (history_auto db) (sql_clock db) (sql_ticks db) (go_clock db) (go_reads db).
Definition set_route_auto (a : Z) (db : DB) : DB :=
  mkDB (backends db) (routes db) (config_history db) (backend_auto db) a
    (history_auto db) (sql_clock db) (sql_ticks db) (go_clock db) (go_reads db).
Definition set_history_auto (a : Z) (db : DB) : DB :=
  mkDB (backends db) (routes db) (config_history db) (backend_auto db)
    (route_auto db) a (sql_clock db) (sql_ticks db) (go_clock db) (go_reads db).

(** A statement has changed rows: the next one reads the next timestamp. *)
Definition sql_tick (db : DB) : DB :=
  mkDB (backends db) (routes db) (config_history db) (backend_auto db)
    (route_auto db) (history_auto db) (sql_clock db) (S (sql_ticks db))
    (go_clock db) (go_reads db).

(** [time.Now()]. *)
Definition time_Now (db : DB) : Z * DB :=
  (go_clock db (go_reads db),
   mkDB (backends db) (routes db) (config_history db) (backend_auto db)
     (route_auto db) (history_auto db) (sql_clock db) (sql_ticks db)
     (go_clock db) (S (go_reads db))).

(** The methods of the [Store] interface. *)
Inductive StoreOp :=
  | OpGetBackends | OpGetBackendByName | OpCreateBackend | OpUpdateBackend
  | OpDeleteBackend | OpGetRoutes | OpGetRouteByID | OpCreateRoute
  | OpUpdateRoute | OpDeleteRoute | OpCreateHistory | OpGetHistory.

(** Which store calls fail with a driver error. *)
Definition Faults := StoreOp -> bool.

(** Go [error] values returned by the store: [errors.New(msg)], an
    opaque driver error, or the error of [rows.Scan] for a [NULL] column
    scanned into a [json.RawMessage]. *)
Inductive Error :=
  | ErrNew (msg : string)
  | ErrDriver
  | ErrScan (index column : string).

(** The double quote, for [%q]. *)
Definition dq : string := String (ascii_of_nat 34) EmptyString.

Definition error_string (e : Error) : string :=
  match e with
  | ErrNew m => m
  | ErrDriver => "Error 2013: Lost connection to MySQL server during query"
  | ErrScan i c =>
      "sql: Scan error on column index " ++ i ++ ", name " ++ dq ++ c ++ dq ++
      ": unsupported Scan, storing driver.Value type <nil> into type *json.RawMessage"
  end.

(** What a handler writes: a success status with a JSON body, or
    [http.Error(w, msg, status)]. *)
Inductive Body :=
  | BNone
  | BBackend (b : Backend.t)
  | BRoute (r : Route.t)
  | BHistoryPage (items : list ConfigHistory.t) (total limit offset : Z).

Inductive Outcome :=
  | Respond (status : Z) (body : Body)
  | HttpError (status : Z) (msg : string).

(** The handler monad: store state, the fault oracle, and the early
    [return] after [http.Error] ([inl]). *)
Definition M (A : Type) : Type := Faults -> DB -> (Outcome + A) * DB.

Definition ret_M {A} (a : A) : M A := fun _ db => (inr a, db).

Definition bind_M {A B} (m : M A) (k : A -> M B) : M B :=
  fun flt db =>
    match m flt db with
    | (inl o, db') => (inl o, db')
    | (inr a, db') => k a flt db'
    end.

Notation "'let!' x := m 'in' k" := (bind_M m (fun x => k))
  (at level 200, x name, m at level 100, k at level 200).

Definition http_error {A} (status : Z) (msg : string) : M A :=
  fun _ db => (inl (HttpError status msg), db).

(** A store call: a driver failure leaves the state unchanged. *)
Definition call {A} (op : StoreOp) (f : DB -> (Error + A) * DB) : M (Error + A) :=
  fun flt db =>
    if flt op then (inr (inl ErrDriver), db)
    else let '(res, db') := f db in (inr res, db').

Definition run (m : M Outcome) (flt : Faults) (db : DB) : Outcome * DB :=
  match m flt db with
  | (inl o, db') => (o, db')
  | (inr o, db') => (o, db')
  end.

(** [raw_body]: the first JSON value of the body, when it is an object
    (or [null], read as the empty object). *)
Record Request := mkReq {
  query : list (string * string);
  headers : list (string * string);
  raw_body : option object
}.

(** [json.NewDecoder(r.Body).Decode(&m)] with [m] a
    [map[string]interface{}]. *)
Definition body (r : Request) : option payload :=
  match raw_body r with
  | Some l => go_map l
  | None => None
  end.

(** [r.URL.Query().Get(k)]: the first value, or the empty string. *)
Definition query_get (r : Request) (k : string) : string :=
  match List.find (fun kv => String.eqb (fst kv) k) (query r) with
  | Some (_, v) => v
  | None => ""
  end.

(** [r.URL.Query().Has(k)]. *)
Definition query_has (r : Request) (k : string) : bool :=
  existsb (fun kv => String.eqb (fst kv) k) (query r).

(** [r.Header.Get(k)] for a canonical key. *)
Definition header_get (r : Request) (k : string) : string :=
  match List.find (fun kv => String.eqb (fst kv) k) (headers r) with
  | Some (_, v) => v
  | None => ""
  end.

(** [strconv.ParseUint(s, 10, 32)] and [strconv.Atoi(s)]. *)
Fixpoint digits_value (s : string) (acc : Z) : option Z :=
  match s with
  | EmptyString => Some acc
  | String c s' =>
      let n := Ascii.nat_of_ascii c in
      if (48 <=? n)%nat && (n <=? 57)%nat
      then digits_value s' (acc * 10 + Z.of_nat (n - 48))
      else None
  end.

Definition parse_digits (s : string) : option Z :=
  match s with
  | EmptyString => None
  | _ => digits_value s 0
  end.

Definition ParseUint32 (s : string) : option Z :=
  match parse_digits s with
  | Some z => if z <? 2 ^ 32 then Some z else None
  | None => None
  end.

Definition int64_range (z : Z) : option Z :=
  if (- 2 ^ 63 <=? z) && (z <? 2 ^ 63) then Some z else None.

Definition Atoi (s : string) : option Z :=
  match s with
  | String "+"%char s' =>
      match parse_digits s' with Some z => int64_range z | None => None end
  | String "-"%char s' =>
      match parse_digits s' with Some z => int64_range (- z) | None => None end
  | _ => match parse_digits s with Some z => int64_range z | None => None end
  end.


(* ------------------------------------------------------------------ *)
(** ** [MySQLStore] (mysql_store.go) *)

Module MySQLStore.

Definition name_is (name : string) (b : Backend.t) : bool :=
  String.eqb (Backend.Name b) name.
Definition id_is (id : Z) (r : Route.t) : bool := Z.eqb (Route.ID r) id.

(** [SELECT ... FROM backends WHERE name = ? LIMIT 1] *)
Definition GetBackendByName (name : string) (db : DB)
    : (Error + option Backend.t) * DB :=
  (inr (List.find (name_is name) (backends db)), db).

(** [INSERT INTO backends (name, addr, description, enabled)]: the table
    sets [created_at] and [updated_at] to [CURRENT_TIMESTAMP]; the id is
    [LastInsertId], and the Go struct gets two readings of [time.Now()]. *)
Definition CreateBackend (backend : Backend.t) (db : DB)
    : (Error + Backend.t) * DB :=
  let id := backend_auto db in
  let row := b_set_times (now db) (now db) (b_set_ID id backend) in
  let db := sql_tick (set_backend_auto (id + 1) (set_backends (backends db ++ [row]) db)) in
  let '(c, db) := time_Now db in
  let '(u, db) := time_Now db in
  (inr (b_set_times c u (b_set_ID id backend)), db).

(** [UPDATE backends SET addr, description, enabled, updated_at WHERE name = ?] *)
Definition update_row (backend : Backend.t) (t : Z) (row : Backend.t) : Backend.t :=
  Backend.mk (Backend.ID row) (Backend.Name row) (Backend.Addr backend)
    (Backend.Description backend) (Backend.Enabled backend)
    (Backend.CreatedAt row) t.

(** Does the [UPDATE] change the row? *)
Definition update_changes (backend : Backend.t) (t : Z) (row : Backend.t) : bool :=
  negb (String.eqb (Backend.Addr row) (Backend.Addr backend)) ||
  negb (String.eqb (Backend.Description row) (Backend.Description backend)) ||
  negb (Bool.eqb (Backend.Enabled row) (Backend.Enabled backend)) ||
  negb (Z.eqb (Backend.UpdatedAt row) t).

Definition UpdateBackend (name : string) (backend : Backend.t) (db : DB)
    : (Error + Backend.t) * DB :=
  let t := now db in
  let rowsAffected := length (List.filter (fun row => name_is name row &&
                                             update_changes backend t row) (backends db)) in
  if Nat.eqb rowsAffected 0 then (inl (ErrNew "backend not found"), db)
  else
    let rows := map (fun row => if name_is name row
                                then update_row backend t row
                                else row) (backends db) in
    let db := sql_tick (set_backends rows db) in
    let '(u, db) := time_Now db in
    (inr (b_set_UpdatedAt u (b_set_Name name backend)), db).

(** [UPDATE backends SET enabled = 0, updated_at = CURRENT_TIMESTAMP WHERE name = ?] *)
Definition delete_changes (t : Z) (row : Backend.t) : bool :=
  Backend.Enabled row || negb (Z.eqb (Backend.UpdatedAt row) t).

Definition DeleteBackend (name : string) (db : DB) : (Error + unit) * DB :=
  let t := now db in
  let rowsAffected := length (List.filter (fun row => name_is name row &&
                                             delete_changes t row) (backends db)) in
  if Nat.eqb rowsAffected 0 then (inl (ErrNew "backend not found"), db)
  else
    let rows := map (fun row => if name_is name row
                                then b_set_UpdatedAt t (b_set_Enabled false row)
                                else row) (backends db) in
    (inr tt, sql_tick (set_backends rows db)).

Definition GetRouteByID (id : Z) (db : DB) : (Error + option Route.t) * DB :=
  (inr (List.find (id_is id) (routes db)), db).

Definition CreateRoute (route : Route.t) (db : DB) : (Error + Route.t) * DB :=
  let id := route_auto db in
  let row := r_set_times (now db) (now db) (r_set_ID id route) in
  let db := sql_tick (set_route_auto (id + 1) (set_routes (routes db ++ [row]) db)) in
  let '(c, db) := time_Now db in
  let '(u, db) := time_Now db in
  (inr (r_set_times c u (r_set_ID id route)), db).

(** [UPDATE routes SET http_method, ..., enabled, updated_at WHERE id = ?] *)
Definition update_route_row (route : Route.t) (t : Z) (row : Route.t) : Route.t :=
  Route.mk (Route.ID row) (Route.HTTPMethod route) (Route.HTTPPattern route)
    (Route.BackendName route) (Route.BackendService route)
    (Route.BackendMethod route) (Route.TimeoutMS route)
    (Route.Description route) (Route.Enabled route) (Route.CreatedAt row) t.

Definition update_route_changes (route : Route.t) (t : Z) (row : Route.t) : bool :=
  negb (String.eqb (Route.HTTPMethod row) (Route.HTTPMethod route)) ||
  negb (String.eqb (Route.HTTPPattern row) (Route.HTTPPattern route)) ||
  negb (String.eqb (Route.BackendName row) (Route.BackendName route)) ||
  negb (String.eqb (Route.BackendService row) (Route.BackendService route)) ||
  negb (String.eqb (Route.BackendMethod row) (Route.BackendMethod route)) ||
  negb (Z.eqb (Route.TimeoutMS row) (Route.TimeoutMS route)) ||
  negb (String.eqb (Route.Description row) (Route.Description route)) ||
  negb (Bool.eqb (Route.Enabled row) (Route.Enabled route)) ||
  negb (Z.eqb (Route.UpdatedAt row) t).

Definition UpdateRoute (id : Z) (route : Route.t) (db : DB)
    : (Error + Route.t) * DB :=
  let t := now db in
  let rowsAffected := length (List.filter (fun row => id_is id row &&
                                             update_route_changes route t row) (routes db)) in
  if Nat.eqb rowsAffected 0 then (inl (ErrNew "route not found"), db)
  else
    let rows := map (fun row => if id_is id row
                                then update_route_row route t row
                                else row) (routes db) in
    let db := sql_tick (set_routes rows db) in
    let '(u, db) := time_Now db in
    (inr (r_set_UpdatedAt u (r_set_ID id route)), db).

Definition delete_route_changes (t : Z) (row : Route.t) : bool :=
  Route.Enabled row || negb (Z.eqb (Route.UpdatedAt row) t).

Definition DeleteRoute (id : Z) (db : DB) : (Error + unit) * DB :=
  let t := now db in
  let rowsAffected := length (List.filter (fun row => id_is id row &&
                                             delete_route_changes t row) (routes db)) in
  if Nat.eqb rowsAffected 0 then (inl (ErrNew "route not found"), db)
  else
    let rows := map (fun row => if id_is id row
                                then r_set_UpdatedAt t (r_set_Enabled false row)
                                else row) (routes db) in
    (inr tt, sql_tick (set_routes rows db)).

(** [INSERT INTO config_history (config_type, config_id, operation,
    old_value, new_value, operator)]; id and created_at from the table. *)
Definition CreateHistory (h : ConfigHistory.t) (db : DB) : (Error + unit) * DB :=
  let row := ConfigHistory.mk (history_auto db) (ConfigHistory.ConfigType h)
               (ConfigHistory.ConfigID h) (ConfigHistory.Operation h)
               (ConfigHistory.OldValue h) (ConfigHistory.NewValue h)
               (ConfigHistory.Operator h) (now db) in
  (inr tt,
   sql_tick (set_history_auto (history_auto db + 1)
               (set_config_history (config_history db ++ [row]) db))).

(** The [WHERE 1=1 AND config_type = ? AND config_id = ?] clause. *)
Definition history_where (configType : option string) (configID : option Z)
    (h : ConfigHistory.t) : bool :=
  (match configType with
   | Some t => String.eqb (ConfigHistory.ConfigType h) t
   | None => true
   end) &&
  (match configID with
   | Some i => match ConfigHistory.ConfigID h with
               | Some j => Z.eqb j i
               | None => false
               end
   | None => true
   end).

(** [ORDER BY created_at DESC]. SQL leaves the order of rows with equal
    [created_at] open; here the row that comes later in the table comes
    first. *)
Fixpoint insert_desc (h : ConfigHistory.t) (l : list ConfigHistory.t)
    : list ConfigHistory.t :=
  match l with
  | [] => [h]
  | x :: l' =>
      if ConfigHistory.CreatedAt x <? ConfigHistory.CreatedAt h
      then h :: l
      else x :: insert_desc h l'
  end.

Fixpoint order_created_desc (l : list ConfigHistory.t) : list ConfigHistory.t :=
  match l with
  | [] => []
  | h :: l' => insert_desc h (order_created_desc l')
  end.

(** [rows.Scan] of the page, in order: a [NULL] [old_value] (column 4)
    or [new_value] (column 5) cannot be stored in a [json.RawMessage]. *)
Fixpoint scan_error (page : list ConfigHistory.t) : option Error :=
  match page with
  | [] => None
  | h :: page' =>
      match ConfigHistory.OldValue h, ConfigHistory.NewValue h with
      | None, _ => Some (ErrScan "4" "old_value")
      | Some _, None => Some (ErrScan "5" "new_value")
      | Some _, Some _ => scan_error page'
      end
  end.

(** [GetHistory]: the counting query, then the page query with
    [LIMIT ? OFFSET ?] (MySQL rejects a negative limit or offset), then
    the scan of its rows. *)
Definition GetHistory (configType : option string) (configID : option Z)
    (limit offset : Z) (db : DB)
    : (Error + (list ConfigHistory.t * Z)) * DB :=
  let matching := List.filter (history_where configType configID)
                    (config_history db) in
  let total := Z.of_nat (length matching) in
  if (limit <? 0) || (offset <? 0) then (inl ErrDriver, db)
  else
    let page := firstn (Z.to_nat limit)
                  (skipn (Z.to_nat offset) (order_created_desc matching)) in
    match scan_error page with
    | Some err => (inl err, db)
    | None => (inr (page, total), db)
    end.

(** [ORDER BY]: the rows sorted by [le], the column order of the table's
    collation. SQL leaves the order of rows that compare equal open; here
    they keep the table order. *)
Fixpoint insert_by {A} (le : A -> A -> bool) (x : A) (l : list A) : list A :=
  match l with
  | [] => [x]
  | y :: l' => if le x y then x :: l else y :: insert_by le x l'
  end.

Fixpoint sort_by {A} (le : A -> A -> bool) (l : list A) : list A :=
  match l with
  | [] => []
  | x :: l' => insert_by le x (sort_by le l')
  end.

(** [WHERE enabled = ?], present only for a non-nil [enabled]. *)
Definition enabled_is (enabled : option bool) (b : bool) : bool :=
  match enabled with
  | Some e => Bool.eqb b e
  | None => true
  end.

Section Collation.
(** The string order of the columns' collation. *)
Variable coll_le : string -> string -> bool.

(** [ORDER BY http_method, http_pattern] *)
Definition route_order (a b : Route.t) : bool :=
  if coll_le (Route.HTTPMethod a) (Route.HTTPMethod b) &&
     coll_le (Route.HTTPMethod b) (Route.HTTPMethod a)
  then coll_le (Route.HTTPPattern a) (Route.HTTPPattern b)
  else coll_le (Route.HTTPMethod a) (Route.HTTPMethod b).

(** [SELECT ... FROM backends [WHERE enabled = ?] ORDER BY name] *)
Definition GetBackends (enabled : option bool) (db : DB)
    : (Error + list Backend.t) * DB :=
  (inr (sort_by (fun a b => coll_le (Backend.Name a) (Backend.Name b))
          (List.filter (fun b => enabled_is enabled (Backend.Enabled b)) (backends db))),
   db).

(** [SELECT ... FROM routes [WHERE enabled = ?] ORDER BY http_method, http_pattern] *)
Definition GetRoutes (enabled : option bool) (db : DB)
    : (Error + list Route.t) * DB :=
  (inr (sort_by route_order
          (List.filter (fun r => enabled_is enabled (Route.Enabled r)) (routes db))),
   db).
End Collation.

End MySQLStore.
(* ------------------------------------------------------------------ *)
(** ** The handlers (backend.go, route.go) *)

Section Handlers.
Variable parse_time : string -> option Z.

(** The [config.Store] calls, backed by [MySQLStore]. *)
Definition store_GetBackendByName (name : string) : M (Error + option Backend.t) :=
  call OpGetBackendByName (MySQLStore.GetBackendByName name).
Definition store_CreateBackend (b : Backend.t) : M (Error + Backend.t) :=
  call OpCreateBackend (MySQLStore.CreateBackend b).
Definition store_UpdateBackend (name : string) (b : Backend.t) : M (Error + Backend.t) :=
  call OpUpdateBackend (MySQLStore.UpdateBackend name b).
Definition store_DeleteBackend (name : string) : M (Error + unit) :=
  call OpDeleteBackend (MySQLStore.DeleteBackend name).
Definition store_GetRouteByID (id : Z) : M (Error + option Route.t) :=
  call OpGetRouteByID (MySQLStore.GetRouteByID id).
Definition store_CreateRoute (r : Route.t) : M (Error + Route.t) :=
  call OpCreateRoute (MySQLStore.CreateRoute r).
Definition store_UpdateRoute (id : Z) (r : Route.t) : M (Error + Route.t) :=
  call OpUpdateRoute (MySQLStore.UpdateRoute id r).
Definition store_DeleteRoute (id : Z) : M (Error + unit) :=
  call OpDeleteRoute (MySQLStore.DeleteRoute id).
Definition store_CreateHistory (h : ConfigHistory.t) : M (Error + unit) :=
  call OpCreateHistory (MySQLStore.CreateHistory h).
Definition store_GetHistory (ct : option string) (cid : option Z) (limit offset : Z)
    : M (Error + (list ConfigHistory.t * Z)) :=
  call OpGetHistory (MySQLStore.GetHistory ct cid limit offset).

(** [recordHistory] (identical in BackendHandler and RouteHandler):
    the error of [CreateHistory] is only logged. *)
Definition recordHistory (configType : string) (configID : option Z)
    (operation : string) (oldVal newVal : option Snapshot) (r : Request) : M unit :=
  let history := ConfigHistory.mk 0 configType configID operation oldVal newVal
                   (header_get r "X-Operator") zero_time in
  let! _err := store_CreateHistory history in
  ret_M tt.

Definition not_found_or_500 {A} (err : Error) (msg : string) : M A :=
  if String.eqb (error_string err) msg then http_error 404 msg
  else http_error 500 "internal server error".

(** POST /api/v1/backends *)
Definition CreateBackend (r : Request) : M Outcome :=
  match raw_body r with
  | None => http_error 400 "invalid json"
  | Some p =>
  match decode_backend parse_time p with
  | None => http_error 400 "invalid json"
  | Some backend =>
  if String.eqb (Backend.Name backend) "" then http_error 400 "name is required" else
  if String.eqb (Backend.Addr backend) "" then http_error 400 "addr is required" else
  let! existing := store_GetBackendByName (Backend.Name backend) in
  match existing with
  | inl _ => http_error 500 "internal server error"
  | inr (Some _) => http_error 409 "backend already exists"
  | inr None =>
    (* Default enabled to true *)
    let backend := if negb (query_has r "enabled")
                   then b_set_Enabled true backend else backend in
    let! created := store_CreateBackend backend in
    match created with
    | inl _ => http_error 500 "internal server error"
    | inr backend =>
      let! _u := recordHistory "backend" (Some (Backend.ID backend)) "CREATE"
                   None (Some (SBackend backend)) r in
      ret_M (Respond 201 (BBackend backend))
    end
  end
  end
  end.

(** PUT /api/v1/backends/{name} *)
Definition UpdateBackend (name : string) (r : Request) : M Outcome :=
  let! found := store_GetBackendByName name in
  match found with
  | inl _ => http_error 500 "internal server error"
  | inr None => http_error 404 "backend not found"
  | inr (Some oldBackend) =>
  match body r with
  | None => http_error 400 "invalid json"
  | Some backendUpdate =>
  let enabledPresent := match backendUpdate !! "enabled" with
                        | Some _ => true | None => false end in
  let enabledValue := match backendUpdate !! "enabled" with
                      | Some (JBool b) => b | _ => false end in
  match decode_backend parse_time (marshal_map backendUpdate) with
  | None => http_error 400 "invalid json"
  | Some backend =>
  let backend := if negb enabledPresent
                 then b_set_Enabled (Backend.Enabled oldBackend) backend
                 else b_set_Enabled enabledValue backend in
  if String.eqb (Backend.Addr backend) "" then http_error 400 "addr is required" else
  (* Preserve ID and name *)
  let backend := b_set_Name name (b_set_ID (Backend.ID oldBackend) backend) in
  let! updated := store_UpdateBackend name backend in
  match updated with
  | inl err => not_found_or_500 err "backend not found"
  | inr backend =>
    let! _u := recordHistory "backend" (Some (Backend.ID backend)) "UPDATE"
                 (Some (SBackend oldBackend)) (Some (SBackend backend)) r in
    ret_M (Respond 200 (BBackend backend))
  end
  end
  end
  end.

(** DELETE /api/v1/backends/{name} *)
Definition DeleteBackend (name : string) (r : Request) : M Outcome :=
  let! found := store_GetBackendByName name in
  match found with
  | inl _ => http_error 500 "internal server error"
  | inr None => http_error 404 "backend not found"
  | inr (Some oldBackend) =>
  let! deleted := store_DeleteBackend name in
  match deleted with
  | inl err => not_found_or_500 err "backend not found"
  | inr _ =>
    let oldBackend := b_set_Enabled false oldBackend in
    let! _u := recordHistory "backend" (Some (Backend.ID oldBackend)) "DELETE"
                 (Some (SBackend oldBackend)) None r in
    ret_M (Respond 204 BNone)
  end
  end.

Definition route_required_missing (route : Route.t) : bool :=
  String.eqb (Route.HTTPMethod route) "" || String.eqb (Route.HTTPPattern route) "" ||
  String.eqb (Route.BackendName route) "" || String.eqb (Route.BackendService route) "" ||
  String.eqb (Route.BackendMethod route) "".

(** POST /api/v1/routes *)
Definition CreateRoute (r : Request) : M Outcome :=
  match raw_body r with
  | None => http_error 400 "invalid json"
  | Some p =>
  match decode_route parse_time p with
  | None => http_error 400 "invalid json"
  | Some route =>
  if String.eqb (Route.HTTPMethod route) "" then http_error 400 "http_method is required" else
  if String.eqb (Route.HTTPPattern route) "" then http_error 400 "http_pattern is required" else
  if String.eqb (Route.BackendName route) "" then http_error 400 "backend_name is required" else
  if String.eqb (Route.BackendService route) "" then http_error 400 "backend_service is required" else
  if String.eqb (Route.BackendMethod route) "" then http_error 400 "backend_method is required" else
  (* Verify backend exists *)
  let! found := store_GetBackendByName (Route.BackendName route) in
  match found with
  | inl _ => http_error 500 "internal server error"
  | inr None => http_error 400 "backend not found or disabled"
  | inr (Some backend) =>
  if negb (Backend.Enabled backend) then http_error 400 "backend not found or disabled" else
  (* Default values *)
  let route := if Route.TimeoutMS route <=? 0 then r_set_TimeoutMS 5000 route else route in
  let route := if negb (query_has r "enabled") then r_set_Enabled true route else route in
  let! created := store_CreateRoute route in
  match created with
  | inl _ => http_error 500 "internal server error"
  | inr route =>
    let! _u := recordHistory "route" (Some (Route.ID route)) "CREATE"
                 None (Some (SRoute route)) r in
    ret_M (Respond 201 (BRoute route))
  end
  end
  end
  end.

(** PUT /api/v1/routes/{id} *)
Definition UpdateRoute (idStr : string) (r : Request) : M Outcome :=
  match ParseUint32 idStr with
  | None => http_error 400 "invalid route id"
  | Some id =>
  let! found := store_GetRouteByID id in
  match found with
  | inl _ => http_error 500 "internal server error"
  | inr None => http_error 404 "route not found"
  | inr (Some oldRoute) =>
  match body r with
  | None => http_error 400 "invalid json"
  | Some routeUpdate =>
  let enabledPresent := match routeUpdate !! "enabled" with
                        | Some _ => true | None => false end in
  let enabledValue := match routeUpdate !! "enabled" with
                      | Some (JBool b) => b | _ => false end in
  match decode_route parse_time (marshal_map routeUpdate) with
  | None => http_error 400 "invalid json"
  | Some route =>
  let route := if negb enabledPresent
               then r_set_Enabled (Route.Enabled oldRoute) route
               else r_set_Enabled enabledValue route in
  if route_required_missing route
  then http_error 400 "required fields cannot be empty" else
  (* Verify backend exists if changed *)
  let! checked :=
    (if negb (String.eqb (Route.BackendName route) (Route.BackendName oldRoute)) then
       let! found := store_GetBackendByName (Route.BackendName route) in
       match found with
       | inl _ => http_error 500 "internal server error"
       | inr None => http_error 400 "backend not found or disabled"
       | inr (Some backend) =>
           if negb (Backend.Enabled backend)
           then http_error 400 "backend not found or disabled" else ret_M tt
       end
     else ret_M tt) in
  (* Preserve ID *)
  let route := r_set_ID id route in
  let! updated := store_UpdateRoute id route in
  match updated with
  | inl err => not_found_or_500 err "route not found"
  | inr route =>
    let! _u := recordHistory "route" (Some (Route.ID route)) "UPDATE"
                 (Some (SRoute oldRoute)) (Some (SRoute route)) r in
    ret_M (Respond 200 (BRoute route))
  end
  end
  end
  end
  end.

(** DELETE /api/v1/routes/{id} *)
Definition DeleteRoute (idStr : string) (r : Request) : M Outcome :=
  match ParseUint32 idStr with
  | None => http_error 400 "invalid route id"
  | Some id =>
  let! found := store_GetRouteByID id in
  match found with
  | inl _ => http_error 500 "internal server error"
  | inr None => http_error 404 "route not found"
  | inr (Some oldRoute) =>
  let! deleted := store_DeleteRoute id in
  match deleted with
  | inl err => not_found_or_500 err "route not found"
  | inr _ =>
    let oldRoute := r_set_Enabled false oldRoute in
    let! _u := recordHistory "route" (Some (Route.ID oldRoute)) "DELETE"
                 (Some (SRoute oldRoute)) None r in
    ret_M (Respond 204 BNone)
  end
  end
  end.

End Handlers.

(** GET /api/v1/history?config_type=&config_id=&limit=&offset= *)
Definition ListHistory (r : Request) : M Outcome :=
  let typeParam := query_get r "config_type" in
  if negb (String.eqb typeParam "") && negb (String.eqb typeParam "backend")
     && negb (String.eqb typeParam "route")
  then http_error 400 "invalid config_type (must be 'backend' or 'route')" else
  let configType := if String.eqb typeParam "" then None else Some typeParam in
  let idParam := query_get r "config_id" in
  let! configID :=
    (if String.eqb idParam "" then ret_M None else
     match ParseUint32 idParam with
     | None => http_error 400 "invalid config_id"
     | Some id => ret_M (Some id)
     end) in
  let limitParam := query_get r "limit" in
  let limit := if String.eqb limitParam "" then 50 else
               match Atoi limitParam with
               | Some l => if (0 <? l) && (l <=? 100) then l else 50
               | None => 50
               end in
  let offsetParam := query_get r "offset" in
  let offset := if String.eqb offsetParam "" then 0 else
                match Atoi offsetParam with
                | Some o => if 0 <=? o then o else 0
                | None => 0
                end in
  let! res := store_GetHistory configType configID limit offset in
  match res with
  | inl _ => http_error 500 "internal server error"
  | inr (histories, total) => ret_M (Respond 200 (BHistoryPage histories total limit offset))
  end.

(* ------------------------------------------------------------------ *)
(** ** The read handlers (backend.go, route.go) *)

(** [strconv.ParseBool] *)
Definition ParseBool (str : string) : option bool :=
  if existsb (String.eqb str) ["1"; "t"; "T"; "TRUE"; "true"; "True"] then Some true
  else if existsb (String.eqb str) ["0"; "f"; "F"; "FALSE"; "false"; "False"] then Some false
  else None.

(** What [json.NewEncoder(w).Encode] writes for a slice: [null] for a nil
    slice, else the array. The slices of [GetBackends] and [GetRoutes] are
    built by [append] from a nil slice, so they are nil exactly when no row
    was read. *)
Inductive json_array (A : Type) :=
  | JSONNull
  | JSONArray (l : list A).
Arguments JSONNull {A}.
Arguments JSONArray {A} l.

Definition encode_slice {A} (l : list A) : json_array A :=
  match l with
  | [] => JSONNull
  | _ => JSONArray l
  end.

Section Listing.
Variable coll_le : string -> string -> bool.

Definition store_GetBackends (enabled : option bool) : M (Error + list Backend.t) :=
  call OpGetBackends (MySQLStore.GetBackends coll_le enabled).
Definition store_GetRoutes (enabled : option bool) : M (Error + list Route.t) :=
  call OpGetRoutes (MySQLStore.GetRoutes coll_le enabled).

(** The [?enabled=] parameter of the list handlers. *)
Definition enabled_param (r : Request) : M (option bool) :=
  let enabledParam := query_get r "enabled" in
  if String.eqb enabledParam "" then ret_M None else
  match ParseBool enabledParam with
  | None => http_error 400 "invalid enabled parameter"
  | Some enabledVal => ret_M (Some enabledVal)
  end.

(** GET /api/v1/backends?enabled= (the answer is 200 with the encoded list) *)
Definition ListBackends (r : Request) : M (json_array Backend.t) :=
  let! enabled := enabled_param r in
  let! res := store_GetBackends enabled in
  match res with
  | inl _ => http_error 500 "internal server error"
  | inr backends => ret_M (encode_slice backends)
  end.

(** GET /api/v1/routes?enabled= *)
Definition ListRoutes (r : Request) : M (json_array Route.t) :=
  let! enabled := enabled_param r in
  let! res := store_GetRoutes enabled in
  match res with
  | inl _ => http_error 500 "internal server error"
  | inr routes => ret_M (encode_slice routes)
  end.
End Listing.

(** GET /api/v1/backends/{name} *)
Definition GetBackend (name : string) : M Outcome :=
  let! found := store_GetBackendByName name in
  match found with
  | inl _ => http_error 500 "internal server error"
  | inr None => http_error 404 "backend not found"
  | inr (Some backend) => ret_M (Respond 200 (BBackend backend))
  end.

(** GET /api/v1/routes/{id} *)
Definition GetRoute (idStr : string) : M Outcome :=
  match ParseUint32 idStr with
  | None => http_error 400 "invalid route id"
  | Some id =>
  let! found := store_GetRouteByID id in
  match found with
  | inl _ => http_error 500 "internal server error"
  | inr None => http_error 404 "route not found"
  | inr (Some route) => ret_M (Respond 200 (BRoute route))
  end
  end.

(* ------------------------------------------------------------------ *)
(** ** The CORS middleware (middleware/cors.go) *)

(** [getEnv]: [os.Getenv] gives the empty string for an unset variable;
    [env] is the process environment. *)
Definition getEnv (env : string -> string) (key defaultValue : string) : string :=
  let v := env key in
  if negb (String.eqb v "") then v else defaultValue.

(** [strings.Split(s, ",")] *)
Fixpoint split_comma (s : string) : list string :=
  match s with
  | EmptyString => [EmptyString]
  | String c s' =>
      if Ascii.eqb c ","%char then EmptyString :: split_comma s'
      else match split_comma s' with
           | h :: t => String c h :: t
           | [] => [String c EmptyString]
           end
  end.

(** The UTF-8 encodings of the runes [unicode.IsSpace] accepts:
    the ASCII spaces, U+0085, U+00A0, U+1680, U+2000 to U+200A, U+2028,
    U+2029, U+202F, U+205F and U+3000. *)
Definition space_encodings : list (list ascii) :=
  map (map ascii_of_nat)
    ([[9]; [10]; [11]; [12]; [13]; [32]; [194; 133]; [194; 160]; [225; 154; 128]] ++
     map (fun k => [226; 128; 128 + k]) (seq 0 11) ++
     [[226; 128; 168]; [226; 128; 169]; [226; 128; 175]; [226; 129; 159];
      [227; 128; 128]])%nat.

Fixpoint strip_prefix (p l : list ascii) : option (list ascii) :=
  match p, l with
  | [], _ => Some l
  | a :: p', b :: l' => if Ascii.eqb a b then strip_prefix p' l' else None
  | _ :: _, [] => None
  end.

Fixpoint strip_any (encs : list (list ascii)) (l : list ascii) : option (list ascii) :=
  match encs with
  | [] => None
  | e :: encs' =>
      match strip_prefix e l with
      | Some l' => Some l'
      | None => strip_any encs' l
      end
  end.

(** Remove leading encodings of [encs] (each removes at least one byte,
    so [length l] steps suffice). *)
Fixpoint trim_encodings (fuel : nat) (encs : list (list ascii)) (l : list ascii)
    : list ascii :=
  match fuel with
  | O => l
  | S fuel' =>
      match strip_any encs l with
      | Some l' => trim_encodings fuel' encs l'
      | None => l
      end
  end.

(** [strings.TrimSpace]: [TrimLeftFunc] then [TrimRightFunc] with
    [unicode.IsSpace]; an invalid UTF-8 byte decodes to [RuneError], which
    is no space, so only whole encodings are removed. *)
Definition TrimSpace (s : string) : string :=
  let l := list_ascii_of_string s in
  let l := trim_encodings (length l) space_encodings l in
  let l := rev (trim_encodings (length l) (map (@rev ascii) space_encodings) (rev l)) in
  string_of_list_ascii l.

Record HttpRequest := mkHttpRequest {
  Method : string;
  Header : list (string * string)
}.

(** [http.Header] with canonical keys: [Get] gives the first value,
    [Set] replaces every value of the key. *)
Definition header_Get (h : list (string * string)) (k : string) : string :=
  match List.find (fun kv => String.eqb (fst kv) k) h with
  | Some (_, v) => v
  | None => ""
  end.

Definition header_Set (k v : string) (h : list (string * string))
    : list (string * string) :=
  List.filter (fun kv => negb (String.eqb (fst kv) k)) h ++ [(k, v)].

Definition header_lookup (h : list (string * string)) (k : string) : option string :=
  option_map snd (List.find (fun kv => String.eqb (fst kv) k) h).

(** [determineAllowedOrigin] *)
Fixpoint scan_origins (requestOrigin : string) (allowedOrigins : list string) : string :=
  match allowedOrigins with
  | [] => ""
  | allowed :: rest =>
      if String.eqb allowed "*" then "*"
      else if String.eqb allowed requestOrigin then requestOrigin
      else scan_origins requestOrigin rest
  end.

Definition determineAllowedOrigin (requestOrigin : string) (allowedOrigins : list string)
    : string :=
  if String.eqb requestOrigin "" then "" else
  if Nat.eqb (length allowedOrigins) 1 && String.eqb (nth 0 allowedOrigins "") "*"
  then "*"
  else scan_origins requestOrigin allowedOrigins.

(** What the middleware does with a request: answer a preflight itself,
    or call [next.ServeHTTP] with the headers it has set. *)
Inductive CorsResult :=
  | Preflight (status : Z) (h : list (string * string))
  | Forward (h : list (string * string)) (r : HttpRequest).

(** [CORSMiddleware(next)] applied to the response headers [w] and the
    request [r]; the configuration is read from [env]. *)
Definition CORSMiddleware (env : string -> string) (w : list (string * string))
    (r : HttpRequest) : CorsResult :=
  let allowedOrigins := getEnv env "CORS_ALLOWED_ORIGINS" "*" in
  let allowedMethods := getEnv env "CORS_ALLOWED_METHODS" "GET,POST,PUT,DELETE,OPTIONS,PATCH" in
  let allowedHeaders := getEnv env "CORS_ALLOWED_HEADERS" "Content-Type,Authorization,X-Requested-With" in
  let allowCredentials := String.eqb (getEnv env "CORS_ALLOW_CREDENTIALS" "true") "true" in
  let origins := map TrimSpace (split_comma allowedOrigins) in
  let origin := header_Get (Header r) "Origin" in
  let allowedOrigin := determineAllowedOrigin origin origins in
  let w := if negb (String.eqb allowedOrigin "")
           then header_Set "Access-Control-Allow-Origin" allowedOrigin w else w in
  let w := header_Set "Access-Control-Allow-Methods" allowedMethods w in
  let w := header_Set "Access-Control-Allow-Headers" allowedHeaders w in
  let w := if allowCredentials
           then header_Set "Access-Control-Allow-Credentials" "true" w else w in
  let w := header_Set "Access-Control-Max-Age" "3600" w in
  if String.eqb (Method r) "OPTIONS" then Preflight 200 w
  else Forward w r.

(* ------------------------------------------------------------------ *)
(** ** Auxiliary definitions for the statements *)

(** The value [UpdateBackend]/[UpdateRoute] give to [enabled]. *)
Definition enabled_merge (upd : payload) (oldv : bool) : bool :=
  match upd !! "enabled" with
  | None => oldv
  | Some (JBool b) => b
  | Some _ => false
  end.

(** The row [CreateHistory] appends for a [recordHistory] call run on
    [db], after the mutation of the handler changed rows. *)
Definition hist_row (db : DB) (ct : string) (cid : option Z) (op : string)
    (o n : option Snapshot) (r : Request) : ConfigHistory.t :=
  ConfigHistory.mk (history_auto db) ct cid op o n (header_get r "X-Operator")
    (sql_clock db (S (sql_ticks db))).

Definition history_after (flt : Faults) (db : DB) (row : ConfigHistory.t)
    : list ConfigHistory.t :=
  if flt OpCreateHistory then config_history db else config_history db ++ [row].

(** [ORDER BY created_at DESC] as a relation between neighbours. *)
Definition newest_first (a b : ConfigHistory.t) : Prop :=
  ConfigHistory.CreatedAt b <= ConfigHistory.CreatedAt a.

(** [m] relates the store before and after it by [R], whatever the faults
    and whatever path it takes. *)
Definition keeps {A} (R : DB -> DB -> Prop) (m : M A) : Prop :=
  forall flt db, R db (snd (m flt db)).

(** The store as it was: the read handlers leave it so. *)
Definition unchanged (db db' : DB) : Prop := db' = db.

(** Row ids are unique in each table and below its AUTO_INCREMENT counter. *)
Definition ids_ok (db : DB) : Prop :=
  NoDup (map Backend.ID (backends db)) /\
  Forall (fun b => Backend.ID b < backend_auto db) (backends db) /\
  NoDup (map Route.ID (routes db)) /\
  Forall (fun r => Route.ID r < route_auto db) (routes db) /\
  NoDup (map ConfigHistory.ID (config_history db)) /\
  Forall (fun h => ConfigHistory.ID h < history_auto db) (config_history db).

Definition keeps_ids_ok (db db' : DB) : Prop := ids_ok db -> ids_ok db'.

(** No two backends share a name. *)
Definition names_unique (db : DB) : Prop := NoDup (map Backend.Name (backends db)).

(** Rows are only added at the end: no backend or route row is removed or
    moved (its id stays at its place), and history rows never change. *)
Definition extends (db db' : DB) : Prop :=
  (exists s, map Backend.ID (backends db') = map Backend.ID (backends db) ++ s) /\
  (exists s, map Route.ID (routes db') = map Route.ID (routes db) ++ s) /\
  (exists s, config_history db' = config_history db ++ s).

(** The route table, resp. the backend table, as it was. *)
Definition same_routes (db db' : DB) : Prop := routes db' = routes db.
Definition same_backends (db db' : DB) : Prop := backends db' = backends db.

(** The response headers the CORS middleware has set. *)
Definition cors_headers (res : CorsResult) : list (string * string) :=
  match res with
  | Preflight _ h => h
  | Forward h _ => h
  end.

(** Concrete data used by the examples. *)

(** A time parser that accepts no string (no payload carries a time). *)
Definition pt0 : string -> option Z := fun _ => None.
Definition no_faults : Faults := fun _ => false.
Definition history_fails (flt : Faults) : Faults :=
  fun op => match op with OpCreateHistory => true | o => flt o end.

Definition acct : Backend.t :=
  Backend.mk 1 "account" "127.0.0.1:50051" "Account service" true 10 10.
Definition billing_off : Backend.t :=
  Backend.mk 2 "billing" "127.0.0.1:50052" "" false 10 10.
Definition login_route : Route.t :=
  Route.mk 1 "POST" "/v1/user/login" "account" "user.v1.UserService" "Login"
    3000 "User login route" true 20 20.
(** Both clocks read 100 throughout: every request runs within one second. *)
Definition db_ex : DB :=
  mkDB [acct; billing_off] [login_route] [] 3 2 1 (fun _ => 100) 0 (fun _ => 100) 0.

Definition req_op (q : list (string * string)) (p : object) : Request :=
  mkReq q [("X-Operator", "alice")] (Some p).

Definition upd_addr_only : object := [("addr", JStr "127.0.0.1:9999")].
Definition upd_addr_disable : object :=
  [("addr", JStr "127.0.0.1:9999"); ("enabled", JBool false)].

Definition route_fields (bn : string) : object :=
  [("http_method", JStr "POST"); ("http_pattern", JStr "/v1/user/login");
   ("backend_name", JStr bn); ("backend_service", JStr "user.v1.UserService");
   ("backend_method", JStr "Login")].

(* ------------------------------------------------------------------ *)
(** ** Lemmas on the store calls and the shape of successful runs *)

Lemma find_map_update {A} (P : A -> bool) (f : A -> A) (l : list A) :
  (forall x, P (f x) = P x) ->
  List.find P (map (fun x => if P x then f x else x) l) = option_map f (List.find P l).
Proof.
  intros Hf. induction l as [|x l IH]; simpl; [reflexivity|].
  destruct (P x) eqn:Hx; simpl.
  - rewrite Hf, Hx. reflexivity.
  - rewrite Hx. exact IH.
Qed.

Lemma find_filter_nonempty {A} (P Q : A -> bool) (l : list A) (x : A) :
  List.find P l = Some x -> Q x = true ->
  Nat.eqb (length (List.filter (fun y => P y && Q y) l)) 0 = false.
Proof.
  intros Hf Hq. apply List.find_some in Hf as [Hin Hp].
  destruct (List.filter (fun y => P y && Q y) l) eqn:He; [|reflexivity].
  exfalso. assert (Hx : In x (List.filter (fun y => P y && Q y) l)).
  { apply filter_In. split; [exact Hin|]. rewrite Hp, Hq. reflexivity. }
  rewrite He in Hx. exact Hx.
Qed.

Lemma filter_map_update_nil {A} (P Q : A -> bool) (f : A -> A) (l : list A) :
  (forall x, P (f x) = P x) -> (forall x, P x = true -> Q (f x) = false) ->
  List.filter (fun y => P y && Q y) (map (fun x => if P x then f x else x) l) = [].
Proof.
  intros Hp Hq. induction l as [|x l IH]; simpl; [reflexivity|].
  destruct (P x) eqn:Hx; simpl.
  - rewrite Hp, Hx, (Hq x Hx). exact IH.
  - rewrite Hx. exact IH.
Qed.

Lemma filter_map_update_all {A} (P Q : A -> bool) (f : A -> A) (l : list A) (x : A) :
  List.find P l = Some x -> (forall x, P (f x) = P x) -> (forall x, P x = true -> Q (f x) = true) ->
  Nat.eqb (length (List.filter (fun y => P y && Q y) (map (fun x => if P x then f x else x) l))) 0
  = false.
Proof.
  intros Hf Hp Hq.
  apply (find_filter_nonempty _ _ _ (f x)).
  - rewrite find_map_update, Hf by exact Hp. reflexivity.
  - apply Hq. exact (proj2 (List.find_some _ _ Hf)).
Qed.

Lemma name_is_eq (name : string) (b : Backend.t) :
  MySQLStore.name_is name b = true -> Backend.Name b = name.
Proof. unfold MySQLStore.name_is. apply String.eqb_eq. Qed.

Lemma UpdateBackend_result (name : string) (b b' : Backend.t) (db d : DB) :
  MySQLStore.UpdateBackend name b db = (inr b', d) ->
  b' = b_set_UpdatedAt (go_clock db (go_reads db)) (b_set_Name name b) /\
  d = mkDB (map (fun row => if MySQLStore.name_is name row
                            then MySQLStore.update_row b (now db) row
                            else row) (backends db))
        (routes db) (config_history db) (backend_auto db) (route_auto db) (history_auto db)
        (sql_clock db) (S (sql_ticks db)) (go_clock db) (S (go_reads db)).
Proof.
  unfold MySQLStore.UpdateBackend.
  destruct (Nat.eqb _ 0); intros H; inversion H; subst; split; reflexivity.
Qed.

Lemma UpdateRoute_result (id : Z) (rt rt' : Route.t) (db d : DB) :
  MySQLStore.UpdateRoute id rt db = (inr rt', d) ->
  rt' = r_set_UpdatedAt (go_clock db (go_reads db)) (r_set_ID id rt) /\
  d = mkDB (backends db)
        (map (fun row => if MySQLStore.id_is id row
                         then MySQLStore.update_route_row rt (now db) row
                         else row) (routes db))
        (config_history db) (backend_auto db) (route_auto db) (history_auto db)
        (sql_clock db) (S (sql_ticks db)) (go_clock db) (S (go_reads db)).
Proof.
  unfold MySQLStore.UpdateRoute.
  destruct (Nat.eqb _ 0); intros H; inversion H; subst; split; reflexivity.
Qed.

Lemma DeleteBackend_result (name : string) (u : unit) (db d : DB) :
  MySQLStore.DeleteBackend name db = (inr u, d) ->
  d = sql_tick (set_backends (map (fun row => if MySQLStore.name_is name row
                                    then b_set_UpdatedAt (now db) (b_set_Enabled false row)
                                    else row) (backends db)) db).
Proof.
  unfold MySQLStore.DeleteBackend.
  destruct (Nat.eqb _ 0); intros H; inversion H; subst; reflexivity.
Qed.

Lemma DeleteRoute_result (id : Z) (u : unit) (db d : DB) :
  MySQLStore.DeleteRoute id db = (inr u, d) ->
  d = sql_tick (set_routes (map (fun row => if MySQLStore.id_is id row
                                  then r_set_UpdatedAt (now db) (r_set_Enabled false row)
                                  else row) (routes db)) db).
Proof.
  unfold MySQLStore.DeleteRoute.
  destruct (Nat.eqb _ 0); intros H; inversion H; subst; reflexivity.
Qed.

Create HintDb handlers.
#[local] Hint Unfold run bind_M ret_M http_error call not_found_or_500 recordHistory
  store_GetBackendByName store_CreateBackend store_UpdateBackend store_DeleteBackend
  store_GetRouteByID store_CreateRoute store_UpdateRoute store_DeleteRoute
  store_CreateHistory store_GetHistory : handlers.

Ltac reduce_in H :=
  cbn -[ParseUint32 Atoi decode_backend decode_route body marshal_map
        MySQLStore.UpdateBackend MySQLStore.UpdateRoute
        MySQLStore.DeleteBackend MySQLStore.DeleteRoute] in H.

(** Split every [match] of a hypothesis on a handler run, innermost
    scrutinee first. *)
Ltac split_run H :=
  autounfold with handlers in H;
  repeat (reduce_in H;
          match type of H with
          | context [match ?x with _ => _ end] =>
              match x with
              | context [match _ with _ => _ end] => fail 1
              | _ => destruct x eqn:?
              end
          end);
  reduce_in H; try discriminate H.

(** Use the store-call equations produced by [split_run]. *)
Ltac use_store_results :=
  repeat match goal with
  | Hs : MySQLStore.UpdateBackend _ _ _ = (inr _, _) |- _ =>
      destruct (UpdateBackend_result _ _ _ _ _ Hs) as [? ?]; clear Hs; subst
  | Hs : MySQLStore.UpdateRoute _ _ _ = (inr _, _) |- _ =>
      destruct (UpdateRoute_result _ _ _ _ _ Hs) as [? ?]; clear Hs; subst
  | Hs : MySQLStore.DeleteBackend _ _ = (inr _, _) |- _ =>
      apply DeleteBackend_result in Hs; subst
  | Hs : MySQLStore.DeleteRoute _ _ = (inr _, _) |- _ =>
      apply DeleteRoute_result in Hs; subst
  end.

Ltac rewrite_enabled :=
  unfold enabled_merge; unfold history_after;
  repeat match goal with
  | Hq : _ !! "enabled" = _ |- _ => rewrite Hq
  | Hq : ?a = true |- context [?a] => rewrite Hq
  | Hq : ?a = false |- context [?a] => rewrite Hq
  end.

Ltac negb_facts :=
  repeat match goal with
  | Hq : negb _ = false |- _ => apply Bool.negb_false_iff in Hq
  | Hq : negb _ = true |- _ => apply Bool.negb_true_iff in Hq
  end.

Section Shapes.
Variable parse_time : string -> option Z.

Lemma update_backend_shape (flt : Faults) (db db' : DB) (name : string)
    (r : Request) (b : Backend.t) :
  run (UpdateBackend parse_time name r) flt db = (Respond 200 (BBackend b), db') ->
  exists old upd bd,
    List.find (MySQLStore.name_is name) (backends db) = Some old /\
    body r = Some upd /\
    decode_backend parse_time (marshal_map upd) = Some bd /\
    String.eqb (Backend.Addr bd) "" = false /\
    b = b_set_UpdatedAt (go_clock db (go_reads db)) (b_set_Name name (b_set_ID (Backend.ID old)
          (b_set_Enabled (enabled_merge upd (Backend.Enabled old)) bd))) /\
    backends db' = map (fun row => if MySQLStore.name_is name row
                                   then MySQLStore.update_row b (now db) row
                                   else row) (backends db) /\
    routes db' = routes db /\
    config_history db' =
      history_after flt db (hist_row db "backend" (Some (Backend.ID b)) "UPDATE"
                              (Some (SBackend old)) (Some (SBackend b)) r).
Proof.
  intros H. unfold UpdateBackend in H. split_run H.
  all: injection H; intros; subst; use_store_results.
  all: do 3 eexists; split; [reflexivity|]; split; [reflexivity|];
    split; [eassumption|]; split; [assumption|].
  all: rewrite_enabled; repeat split; reflexivity.
Qed.

Lemma create_backend_shape (flt : Faults) (db db' : DB) (r : Request)
    (b : Backend.t) :
  run (CreateBackend parse_time r) flt db = (Respond 201 (BBackend b), db') ->
  exists p bd,
    raw_body r = Some p /\
    decode_backend parse_time p = Some bd /\
    String.eqb (Backend.Name bd) "" = false /\
    String.eqb (Backend.Addr bd) "" = false /\
    List.find (MySQLStore.name_is (Backend.Name bd)) (backends db) = None /\
    b = b_set_times (go_clock db (go_reads db)) (go_clock db (S (go_reads db)))
          (b_set_ID (backend_auto db)
             (if negb (query_has r "enabled") then b_set_Enabled true bd else bd)) /\
    backends db' = backends db ++ [b_set_times (now db) (now db) b] /\
    routes db' = routes db /\
    config_history db' =
      history_after flt db (hist_row db "backend" (Some (Backend.ID b)) "CREATE"
                              None (Some (SBackend b)) r).
Proof.
  intros H. unfold CreateBackend in H. split_run H.
  all: injection H; intros; subst.
  all: do 2 eexists; split; [first [reflexivity | eassumption]|]; split; [first [reflexivity | eassumption]|];
    split; [assumption|]; split; [assumption|]; split; [assumption|].
  all: rewrite_enabled; repeat split; reflexivity.
Qed.

Lemma create_route_shape (flt : Faults) (db db' : DB) (r : Request)
    (rt : Route.t) :
  run (CreateRoute parse_time r) flt db = (Respond 201 (BRoute rt), db') ->
  exists p rt0 bk,
    raw_body r = Some p /\
    decode_route parse_time p = Some rt0 /\
    route_required_missing rt0 = false /\
    List.find (MySQLStore.name_is (Route.BackendName rt0)) (backends db) = Some bk /\
    Backend.Enabled bk = true /\
    rt = r_set_times (go_clock db (go_reads db)) (go_clock db (S (go_reads db)))
           (r_set_ID (route_auto db)
             (let rt1 := if Route.TimeoutMS rt0 <=? 0
                         then r_set_TimeoutMS 5000 rt0 else rt0 in
              if negb (query_has r "enabled") then r_set_Enabled true rt1 else rt1)) /\
    routes db' = routes db ++ [r_set_times (now db) (now db) rt] /\
    backends db' = backends db /\
    config_history db' =
      history_after flt db (hist_row db "route" (Some (Route.ID rt)) "CREATE"
                              None (Some (SRoute rt)) r).
Proof.
  intros H. unfold CreateRoute in H. split_run H.
  all: injection H; intros; subst; negb_facts.
  all: do 3 eexists; split; [first [reflexivity | eassumption]|]; split; [first [reflexivity | eassumption]|];
    split; [unfold route_required_missing; rewrite_enabled; reflexivity|];
    split; [first [reflexivity | eassumption]|]; split; [assumption|].
  all: rewrite_enabled; repeat split; reflexivity.
Qed.

Lemma update_route_shape (flt : Faults) (db db' : DB) (idStr : string)
    (r : Request) (rt : Route.t) :
  run (UpdateRoute parse_time idStr r) flt db = (Respond 200 (BRoute rt), db') ->
  exists id old upd rt0,
    ParseUint32 idStr = Some id /\
    List.find (MySQLStore.id_is id) (routes db) = Some old /\
    body r = Some upd /\
    decode_route parse_time (marshal_map upd) = Some rt0 /\
    route_required_missing rt0 = false /\
    (Route.BackendName rt0 <> Route.BackendName old ->
     exists bk, List.find (MySQLStore.name_is (Route.BackendName rt0)) (backends db) = Some bk /\
                Backend.Enabled bk = true) /\
    rt = r_set_UpdatedAt (go_clock db (go_reads db)) (r_set_ID id
           (r_set_Enabled (enabled_merge upd (Route.Enabled old)) rt0)) /\
    routes db' = map (fun row => if MySQLStore.id_is id row
                                 then MySQLStore.update_route_row rt (now db) row
                                 else row) (routes db) /\
    backends db' = backends db /\
    config_history db' =
      history_after flt db (hist_row db "route" (Some (Route.ID rt)) "UPDATE"
                              (Some (SRoute old)) (Some (SRoute rt)) r).
Proof.
  intros H. unfold UpdateRoute in H. split_run H.
  all: injection H; intros; subst; use_store_results; negb_facts.
  all: do 4 eexists; split; [first [reflexivity | eassumption]|]; split; [first [reflexivity | eassumption]|];
    split; [first [reflexivity | eassumption]|]; split; [first [reflexivity | eassumption]|];
    split; [unfold route_required_missing in *; rewrite_enabled; assumption|].
  all: split; [intros Hne; first [eexists; split; eassumption
                                 | exfalso; apply Hne; apply String.eqb_eq; assumption] |].
  all: rewrite_enabled; repeat split; reflexivity.
Qed.

Lemma delete_backend_shape (flt : Faults) (db db' : DB) (name : string)
    (r : Request) :
  run (DeleteBackend name r) flt db = (Respond 204 BNone, db') ->
  exists old,
    List.find (MySQLStore.name_is name) (backends db) = Some old /\
    backends db' = map (fun row => if MySQLStore.name_is name row
                                   then b_set_UpdatedAt (now db) (b_set_Enabled false row)
                                   else row) (backends db) /\
    routes db' = routes db /\
    config_history db' =
      history_after flt db (hist_row db "backend" (Some (Backend.ID old)) "DELETE"
                              (Some (SBackend (b_set_Enabled false old))) None r).
Proof.
  intros H. unfold DeleteBackend in H. split_run H.
  all: injection H; intros; subst; use_store_results.
  all: eexists; split; [first [reflexivity | eassumption]|].
  all: rewrite_enabled; repeat split; reflexivity.
Qed.

Lemma delete_route_shape (flt : Faults) (db db' : DB) (idStr : string)
    (r : Request) :
  run (DeleteRoute idStr r) flt db = (Respond 204 BNone, db') ->
  exists id old,
    ParseUint32 idStr = Some id /\
    List.find (MySQLStore.id_is id) (routes db) = Some old /\
    routes db' = map (fun row => if MySQLStore.id_is id row
                                 then r_set_UpdatedAt (now db) (r_set_Enabled false row)
                                 else row) (routes db) /\
    backends db' = backends db /\
    config_history db' =
      history_after flt db (hist_row db "route" (Some (Route.ID old)) "DELETE"
                              (Some (SRoute (r_set_Enabled false old))) None r).
Proof.
  intros H. unfold DeleteRoute in H. split_run H.
  all: injection H; intros; subst; use_store_results.
  all: do 2 eexists; split; [first [reflexivity | eassumption]|]; split; [first [reflexivity | eassumption]|].
  all: rewrite_enabled; repeat split; reflexivity.
Qed.
End Shapes.





Section StringField.
Context {T : Type} (member : string -> json -> T -> option T) (proj : T -> string)
  (tag : string).
Hypothesis member_other : forall k j x x',
  field_is k tag = false -> member k j x = Some x' -> proj x' = proj x.
Hypothesis member_tag : forall k j x x',
  field_is k tag = true -> member k j x = Some x' ->
  (j = JNull /\ proj x' = proj x) \/ (exists s, j = JStr s /\ proj x' = s).

End StringField.




Lemma find_name_is (name : string) (l : list Backend.t) (b : Backend.t) :
  List.find (MySQLStore.name_is name) l = Some b -> Backend.Name b = name.
Proof. intros H. apply name_is_eq. exact (proj2 (List.find_some _ _ H)). Qed.


Theorem C1_enabled_merge (parse_time : string -> option Z) :
  (forall (flt : Faults) (db db' : DB) (name : string) (r : Request) (b : Backend.t),
     run (UpdateBackend parse_time name r) flt db = (Respond 200 (BBackend b), db') ->
     exists old upd,
       List.find (MySQLStore.name_is name) (backends db) = Some old /\
       body r = Some upd /\
       (upd !! "enabled" = None -> Backend.Enabled b = Backend.Enabled old) /\
       (forall v, upd !! "enabled" = Some (JBool v) -> Backend.Enabled b = v) /\
       (exists row, List.find (MySQLStore.name_is name) (backends db') = Some row /\
                    Backend.Enabled row = Backend.Enabled b)) /\
  (forall (flt : Faults) (db db' : DB) (idStr : string) (r : Request) (rt : Route.t),
     run (UpdateRoute parse_time idStr r) flt db = (Respond 200 (BRoute rt), db') ->
     exists id old upd,
       ParseUint32 idStr = Some id /\
       List.find (MySQLStore.id_is id) (routes db) = Some old /\
       body r = Some upd /\
       (upd !! "enabled" = None -> Route.Enabled rt = Route.Enabled old) /\
       (forall v, upd !! "enabled" = Some (JBool v) -> Route.Enabled rt = v) /\
       (exists row, List.find (MySQLStore.id_is id) (routes db') = Some row /\
                    Route.Enabled row = Route.Enabled rt)).
Proof.
  split.
  - intros flt db db' name r b H.
    destruct (update_backend_shape _ _ _ _ _ _ _ H)
      as (old & upd & bd & Hf & Hb & Hd & Ha & -> & Hbk & _ & _).
    exists old, upd. split; [exact Hf|]. split; [exact Hb|].
    split; [|split].
    + intros He. simpl. unfold enabled_merge. rewrite He. reflexivity.
    + intros v He. simpl. unfold enabled_merge. rewrite He. reflexivity.
    + rewrite Hbk, find_map_update, Hf by reflexivity. simpl.
      eexists. split; reflexivity.
  - intros flt db db' idStr r rt H.
    destruct (update_route_shape _ _ _ _ _ _ _ H)
      as (id & old & upd & rt0 & Hid & Hf & Hb & Hd & Hreq & _ & -> & Hrt & _ & _).
    exists id, old, upd. split; [exact Hid|]. split; [exact Hf|]. split; [exact Hb|].
    split; [|split].
    + intros He. simpl. unfold enabled_merge. rewrite He. reflexivity.
    + intros v He. simpl. unfold enabled_merge. rewrite He. reflexivity.
    + rewrite Hrt, find_map_update, Hf by reflexivity. simpl.
      eexists. split; reflexivity.
Qed.

Lemma C1_witness :
  exists old upd,
    List.find (MySQLStore.name_is "account") (backends db_ex) = Some old /\
    body (req_op [] upd_addr_only) = Some upd /\
    (upd !! "enabled" = None ->
     Backend.Enabled (Backend.mk 1 "account" "127.0.0.1:9999" "" true 0 100) = Backend.Enabled old) /\
    (forall v, upd !! "enabled" = Some (JBool v) ->
     Backend.Enabled (Backend.mk 1 "account" "127.0.0.1:9999" "" true 0 100) = v) /\
    (exists row, List.find (MySQLStore.name_is "account")
                   (backends (snd (run (UpdateBackend pt0 "account" (req_op [] upd_addr_only))
                                       no_faults db_ex))) = Some row /\
                 Backend.Enabled row =
                   Backend.Enabled (Backend.mk 1 "account" "127.0.0.1:9999" "" true 0 100)).
Proof.
  apply (proj1 (C1_enabled_merge pt0) no_faults db_ex
           (snd (run (UpdateBackend pt0 "account" (req_op [] upd_addr_only)) no_faults db_ex))).
  vm_compute. reflexivity.
Defined.






Lemma length_map_id {A} (f : A -> A) (l : list A) : length (map f l) = length l.
Proof. apply length_map. Qed.






Lemma find_id_is (id : Z) (l : list Route.t) (rt : Route.t) :
  List.find (MySQLStore.id_is id) l = Some rt -> Route.ID rt = id.
Proof.
  intros H. apply Z.eqb_eq. exact (proj2 (List.find_some _ _ H)).
Qed.

(** C5 (as stated, refuted): deleting the enabled [account] records a
    DELETE row whose old_value carries [enabled = false], not the
    pre-delete value [true]; updating it records a new_value with
    created_at 0, while the row after the update has created_at 10. *)
Lemma C5_counterexample :
  (fst (run (DeleteBackend "account" (req_op [] [])) no_faults db_ex) = Respond 204 BNone /\
   List.find (MySQLStore.name_is "account") (backends db_ex) = Some acct /\
   Backend.Enabled acct = true /\
   map ConfigHistory.OldValue
     (config_history (snd (run (DeleteBackend "account" (req_op [] [])) no_faults db_ex))) =
     [Some (SBackend (b_set_Enabled false acct))] /\
   Backend.Enabled (b_set_Enabled false acct) = false) /\
  (fst (run (UpdateBackend pt0 "account" (req_op [] upd_addr_only)) no_faults db_ex) =
     Respond 200 (BBackend (Backend.mk 1 "account" "127.0.0.1:9999" "" true 0 100)) /\
   map ConfigHistory.NewValue
     (config_history (snd (run (UpdateBackend pt0 "account" (req_op [] upd_addr_only))
                             no_faults db_ex))) =
     [Some (SBackend (Backend.mk 1 "account" "127.0.0.1:9999" "" true 0 100))] /\
   List.find (MySQLStore.name_is "account")
     (backends (snd (run (UpdateBackend pt0 "account" (req_op [] upd_addr_only))
                       no_faults db_ex))) =
     Some (Backend.mk 1 "account" "127.0.0.1:9999" "" true 10 100)).
Proof. vm_compute. repeat split; reflexivity. Qed.

Theorem C5_amended (parse_time : string -> option Z) :
  (forall (flt : Faults) (db db' : DB) (r : Request) (b : Backend.t),
     run (CreateBackend parse_time r) flt db = (Respond 201 (BBackend b), db') ->
     Backend.CreatedAt b = go_clock db (go_reads db) /\
     Backend.UpdatedAt b = go_clock db (S (go_reads db)) /\
     backends db' = backends db ++ [b_set_times (now db) (now db) b] /\
     config_history db' =
       history_after flt db (hist_row db "backend" (Some (Backend.ID b)) "CREATE"
                               None (Some (SBackend b)) r)) /\
  (forall (flt : Faults) (db db' : DB) (name : string) (r : Request) (b : Backend.t),
     run (UpdateBackend parse_time name r) flt db = (Respond 200 (BBackend b), db') ->
     exists old,
       List.find (MySQLStore.name_is name) (backends db) = Some old /\
       Backend.UpdatedAt b = go_clock db (go_reads db) /\
       List.find (MySQLStore.name_is name) (backends db') =
         Some (b_set_times (Backend.CreatedAt old) (now db) b) /\
       config_history db' =
         history_after flt db (hist_row db "backend" (Some (Backend.ID b)) "UPDATE"
                                 (Some (SBackend old)) (Some (SBackend b)) r)) /\
  (forall (flt : Faults) (db db' : DB) (name : string) (r : Request),
     run (DeleteBackend name r) flt db = (Respond 204 BNone, db') ->
     exists old,
       List.find (MySQLStore.name_is name) (backends db) = Some old /\
       List.find (MySQLStore.name_is name) (backends db') =
         Some (b_set_UpdatedAt (now db) (b_set_Enabled false old)) /\
       config_history db' =
         history_after flt db (hist_row db "backend" (Some (Backend.ID old)) "DELETE"
                                 (Some (SBackend (b_set_Enabled false old))) None r)) /\
  (forall (flt : Faults) (db db' : DB) (r : Request) (rt : Route.t),
     run (CreateRoute parse_time r) flt db = (Respond 201 (BRoute rt), db') ->
     Route.CreatedAt rt = go_clock db (go_reads db) /\
     Route.UpdatedAt rt = go_clock db (S (go_reads db)) /\
     routes db' = routes db ++ [r_set_times (now db) (now db) rt] /\
     config_history db' =
       history_after flt db (hist_row db "route" (Some (Route.ID rt)) "CREATE"
                               None (Some (SRoute rt)) r)) /\
  (forall (flt : Faults) (db db' : DB) (idStr : string) (r : Request) (rt : Route.t),
     run (UpdateRoute parse_time idStr r) flt db = (Respond 200 (BRoute rt), db') ->
     exists id old,
       ParseUint32 idStr = Some id /\
       List.find (MySQLStore.id_is id) (routes db) = Some old /\
       Route.UpdatedAt rt = go_clock db (go_reads db) /\
       List.find (MySQLStore.id_is id) (routes db') =
         Some (r_set_times (Route.CreatedAt old) (now db) rt) /\
       config_history db' =
         history_after flt db (hist_row db "route" (Some (Route.ID rt)) "UPDATE"
                                 (Some (SRoute old)) (Some (SRoute rt)) r)) /\
  (forall (flt : Faults) (db db' : DB) (idStr : string) (r : Request),
     run (DeleteRoute idStr r) flt db = (Respond 204 BNone, db') ->
     exists id old,
       ParseUint32 idStr = Some id /\
       List.find (MySQLStore.id_is id) (routes db) = Some old /\
       List.find (MySQLStore.id_is id) (routes db') =
         Some (r_set_UpdatedAt (now db) (r_set_Enabled false old)) /\
       config_history db' =
         history_after flt db (hist_row db "route" (Some (Route.ID old)) "DELETE"
                                 (Some (SRoute (r_set_Enabled false old))) None r)).
Proof.
  split; [|split; [|split; [|split; [|split]]]].
  - intros flt db db' r b H.
    destruct (create_backend_shape _ _ _ _ _ _ H)
      as (p & bd & _ & _ & _ & _ & _ & -> & Hbk & _ & Hh).
    split; [reflexivity|]. split; [reflexivity|]. split; assumption.
  - intros flt db db' name r b H.
    destruct (update_backend_shape _ _ _ _ _ _ _ H)
      as (old & upd & bd & Hf & _ & _ & _ & Hb & Hbk & _ & Hh).
    exists old. split; [exact Hf|]. split; [subst b; reflexivity|]. split; [|exact Hh].
    pose proof (find_name_is _ _ _ Hf) as Hname.
    rewrite Hbk, find_map_update, Hf by reflexivity. simpl. subst b.
    unfold MySQLStore.update_row, b_set_times. simpl. rewrite Hname. reflexivity.
  - intros flt db db' name r H.
    destruct (delete_backend_shape _ _ _ _ _ H) as (old & Hf & Hbk & _ & Hh).
    exists old. split; [exact Hf|]. split; [|exact Hh].
    rewrite Hbk, find_map_update, Hf by reflexivity. reflexivity.
  - intros flt db db' r rt H.
    destruct (create_route_shape _ _ _ _ _ _ H)
      as (p & rt0 & bk & _ & _ & _ & _ & _ & -> & Hrt & _ & Hh).
    split; [reflexivity|]. split; [reflexivity|]. split; assumption.
  - intros flt db db' idStr r rt H.
    destruct (update_route_shape _ _ _ _ _ _ _ H)
      as (id & old & upd & rt0 & Hid & Hf & _ & _ & _ & _ & Hr & Hrt & _ & Hh).
    exists id, old. split; [exact Hid|]. split; [exact Hf|].
    split; [subst rt; reflexivity|]. split; [|exact Hh].
    pose proof (find_id_is _ _ _ Hf) as Hi.
    rewrite Hrt, find_map_update, Hf by reflexivity. simpl. subst rt.
    unfold MySQLStore.update_route_row, r_set_times. simpl. rewrite Hi. reflexivity.
  - intros flt db db' idStr r H.
    destruct (delete_route_shape _ _ _ _ _ H) as (id & old & Hid & Hf & Hrt & _ & Hh).
    exists id, old. split; [exact Hid|]. split; [exact Hf|]. split; [|exact Hh].
    rewrite Hrt, find_map_update, Hf by reflexivity. reflexivity.
Qed.

Lemma C5_witness :
  (Backend.CreatedAt (Backend.mk 3 "search" "127.0.0.1:50053" "" true 100 100) =
     go_clock db_ex (go_reads db_ex) /\
   Backend.UpdatedAt (Backend.mk 3 "search" "127.0.0.1:50053" "" true 100 100) =
     go_clock db_ex (S (go_reads db_ex)) /\
   backends (snd (run (CreateBackend pt0 (req_op []
       [("name", JStr "search"); ("addr", JStr "127.0.0.1:50053")])) no_faults db_ex)) =
     backends db_ex ++ [b_set_times (now db_ex) (now db_ex)
                          (Backend.mk 3 "search" "127.0.0.1:50053" "" true 100 100)] /\
   config_history (snd (run (CreateBackend pt0 (req_op []
       [("name", JStr "search"); ("addr", JStr "127.0.0.1:50053")])) no_faults db_ex)) =
     history_after no_faults db_ex
       (hist_row db_ex "backend"
          (Some (Backend.ID (Backend.mk 3 "search" "127.0.0.1:50053" "" true 100 100))) "CREATE" None
          (Some (SBackend (Backend.mk 3 "search" "127.0.0.1:50053" "" true 100 100)))
          (req_op [] [("name", JStr "search"); ("addr", JStr "127.0.0.1:50053")]))) /\
  (exists old,
     List.find (MySQLStore.name_is "account") (backends db_ex) = Some old /\
     Backend.UpdatedAt (Backend.mk 1 "account" "127.0.0.1:9999" "" true 0 100) =
       go_clock db_ex (go_reads db_ex) /\
     List.find (MySQLStore.name_is "account")
       (backends (snd (run (UpdateBackend pt0 "account" (req_op [] upd_addr_only)) no_faults db_ex))) =
       Some (b_set_times (Backend.CreatedAt old) (now db_ex)
               (Backend.mk 1 "account" "127.0.0.1:9999" "" true 0 100)) /\
     config_history (snd (run (UpdateBackend pt0 "account" (req_op [] upd_addr_only)) no_faults db_ex)) =
       history_after no_faults db_ex
         (hist_row db_ex "backend"
            (Some (Backend.ID (Backend.mk 1 "account" "127.0.0.1:9999" "" true 0 100))) "UPDATE"
            (Some (SBackend old))
            (Some (SBackend (Backend.mk 1 "account" "127.0.0.1:9999" "" true 0 100)))
            (req_op [] upd_addr_only))) /\
  (exists old,
     List.find (MySQLStore.name_is "account") (backends db_ex) = Some old /\
     List.find (MySQLStore.name_is "account")
       (backends (snd (run (DeleteBackend "account" (req_op [] [])) no_faults db_ex))) =
       Some (b_set_UpdatedAt (now db_ex) (b_set_Enabled false old)) /\
     config_history (snd (run (DeleteBackend "account" (req_op [] [])) no_faults db_ex)) =
       history_after no_faults db_ex
         (hist_row db_ex "backend" (Some (Backend.ID old)) "DELETE"
            (Some (SBackend (b_set_Enabled false old))) None (req_op [] []))) /\
  (Route.CreatedAt (Route.mk 2 "POST" "/v1/user/login" "account" "user.v1.UserService"
                      "Login" 5000 "" true 100 100) = go_clock db_ex (go_reads db_ex) /\
   Route.UpdatedAt (Route.mk 2 "POST" "/v1/user/login" "account" "user.v1.UserService"
                      "Login" 5000 "" true 100 100) = go_clock db_ex (S (go_reads db_ex)) /\
   routes (snd (run (CreateRoute pt0 (req_op [] (route_fields "account"))) no_faults db_ex)) =
     routes db_ex ++ [r_set_times (now db_ex) (now db_ex)
                        (Route.mk 2 "POST" "/v1/user/login" "account" "user.v1.UserService"
                           "Login" 5000 "" true 100 100)] /\
   config_history (snd (run (CreateRoute pt0 (req_op [] (route_fields "account"))) no_faults db_ex)) =
     history_after no_faults db_ex
       (hist_row db_ex "route"
          (Some (Route.ID (Route.mk 2 "POST" "/v1/user/login" "account" "user.v1.UserService"
                             "Login" 5000 "" true 100 100))) "CREATE" None
          (Some (SRoute (Route.mk 2 "POST" "/v1/user/login" "account" "user.v1.UserService"
                           "Login" 5000 "" true 100 100)))
          (req_op [] (route_fields "account")))) /\
  (exists id old,
     ParseUint32 "1" = Some id /\
     List.find (MySQLStore.id_is id) (routes db_ex) = Some old /\
     Route.UpdatedAt (Route.mk 1 "POST" "/v1/user/login" "account" "user.v1.UserService"
                        "Login" 0 "" true 0 100) = go_clock db_ex (go_reads db_ex) /\
     List.find (MySQLStore.id_is id)
       (routes (snd (run (UpdateRoute pt0 "1" (req_op [] (route_fields "account"))) no_faults db_ex))) =
       Some (r_set_times (Route.CreatedAt old) (now db_ex)
               (Route.mk 1 "POST" "/v1/user/login" "account" "user.v1.UserService"
                  "Login" 0 "" true 0 100)) /\
     config_history (snd (run (UpdateRoute pt0 "1" (req_op [] (route_fields "account"))) no_faults db_ex)) =
       history_after no_faults db_ex
         (hist_row db_ex "route"
            (Some (Route.ID (Route.mk 1 "POST" "/v1/user/login" "account" "user.v1.UserService"
                               "Login" 0 "" true 0 100))) "UPDATE" (Some (SRoute old))
            (Some (SRoute (Route.mk 1 "POST" "/v1/user/login" "account" "user.v1.UserService"
                             "Login" 0 "" true 0 100)))
            (req_op [] (route_fields "account")))) /\
  (exists id old,
     ParseUint32 "1" = Some id /\
     List.find (MySQLStore.id_is id) (routes db_ex) = Some old /\
     List.find (MySQLStore.id_is id)
       (routes (snd (run (DeleteRoute "1" (req_op [] [])) no_faults db_ex))) =
       Some (r_set_UpdatedAt (now db_ex) (r_set_Enabled false old)) /\
     config_history (snd (run (DeleteRoute "1" (req_op [] [])) no_faults db_ex)) =
       history_after no_faults db_ex
         (hist_row db_ex "route" (Some (Route.ID old)) "DELETE"
            (Some (SRoute (r_set_Enabled false old))) None (req_op [] []))).
Proof.
  destruct (C5_amended pt0) as (H1 & H2 & H3 & H4 & H5 & H6).
  split; [|split; [|split; [|split; [|split]]]].
  - apply (H1 no_faults db_ex). vm_compute. reflexivity.
  - apply (H2 no_faults db_ex). vm_compute. reflexivity.
  - apply (H3 no_faults db_ex). vm_compute. reflexivity.
  - apply (H4 no_faults db_ex). vm_compute. reflexivity.
  - apply (H5 no_faults db_ex). vm_compute. reflexivity.
  - apply (H6 no_faults db_ex). vm_compute. reflexivity.
Defined.

(** The outcome and the entity tables of a handler run, which a failing
    history insert must leave alone. *)
Ltac same_runs :=
  autounfold with handlers;
  repeat (cbn; match goal with
          | |- context [match ?x with _ => _ end] =>
              match x with
              | context [match _ with _ => _ end] => fail 1
              | _ => destruct x eqn:?
              end
          end);
  cbn; repeat split; reflexivity.

(** C6: a failure of the history insert changes neither the answer of a
    create, update or delete of a Backend or Route nor the Backend and
    Route tables it leaves: the runs with the insert failing and with it
    behaving as [flt] says agree, whatever the other faults. *)
Theorem C6_history_failure_harmless (parse_time : string -> option Z) (flt : Faults) (db : DB)
    (r : Request) (name idStr : string) :
  let agree (m : M Outcome) :=
    fst (run m (history_fails flt) db) = fst (run m flt db) /\
    backends (snd (run m (history_fails flt) db)) = backends (snd (run m flt db)) /\
    routes (snd (run m (history_fails flt) db)) = routes (snd (run m flt db)) in
  agree (CreateBackend parse_time r) /\ agree (UpdateBackend parse_time name r) /\
  agree (DeleteBackend name r) /\ agree (CreateRoute parse_time r) /\
  agree (UpdateRoute parse_time idStr r) /\ agree (DeleteRoute idStr r).
Proof.
  intros agree. unfold agree.
  split; [|split; [|split; [|split; [|split]]]].
  - unfold CreateBackend. same_runs.
  - unfold UpdateBackend. same_runs.
  - unfold DeleteBackend. same_runs.
  - unfold CreateRoute. same_runs.
  - unfold UpdateRoute. same_runs.
  - unfold DeleteRoute. same_runs.
Qed.

(** C7 (the code diverges): the create handlers decide the [enabled]
    default on the URL query ([r.URL.Query().Has("enabled")]), not on the
    payload. POST /api/v1/backends without query and with the body
    [{name: "search", addr: "127.0.0.1:50053", enabled: false}] creates
    [search] with [enabled = true]; the same happens for a Route body with
    [enabled: false]; and with the query [?enabled=x] a body that omits
    [enabled] creates a Backend with [enabled = false]. *)
Theorem C7_create_enabled_from_query :
  In ("enabled", JBool false)
    [("name", JStr "search"); ("addr", JStr "127.0.0.1:50053"); ("enabled", JBool false)] /\
  fst (run (CreateBackend pt0 (req_op []
         [("name", JStr "search"); ("addr", JStr "127.0.0.1:50053"); ("enabled", JBool false)]))
         no_faults db_ex) =
    Respond 201 (BBackend (Backend.mk 3 "search" "127.0.0.1:50053" "" true 100 100)) /\
  In ("enabled", JBool false) (route_fields "account" ++ [("enabled", JBool false)]) /\
  fst (run (CreateRoute pt0 (req_op [] (route_fields "account" ++ [("enabled", JBool false)])))
         no_faults db_ex) =
    Respond 201 (BRoute (Route.mk 2 "POST" "/v1/user/login" "account" "user.v1.UserService"
                           "Login" 5000 "" true 100 100)) /\
  Forall (fun kv => field_is (fst kv) "enabled" = false)
    [("name", JStr "search"); ("addr", JStr "127.0.0.1:50053")] /\
  fst (run (CreateBackend pt0 (req_op [("enabled", "x")]
         [("name", JStr "search"); ("addr", JStr "127.0.0.1:50053")])) no_faults db_ex) =
    Respond 201 (BBackend (Backend.mk 3 "search" "127.0.0.1:50053" "" false 100 100)).
Proof.
  split; [right; right; left; reflexivity|].
  split; [vm_compute; reflexivity|].
  split; [apply in_or_app; right; left; reflexivity|].
  split; [vm_compute; reflexivity|].
  split; [repeat constructor|].
  vm_compute. reflexivity.
Qed.

(** C8 (the code diverges): [UpdateRoute] has no counterpart of
    [CreateRoute]'s [TimeoutMS <= 0 -> 5000] default. PUT
    /api/v1/routes/1 with a body giving the five required fields and no
    [timeout_ms] stores the login route with [timeout_ms = 0], while the
    same body on POST /api/v1/routes creates a route with 5000. *)
Theorem C8_update_keeps_zero_timeout :
  Forall (fun kv => field_is (fst kv) "timeout_ms" = false) (route_fields "account") /\
  option_map Route.TimeoutMS
    (List.find (MySQLStore.id_is 1)
       (routes (snd (run (UpdateRoute pt0 "1" (req_op [] (route_fields "account")))
                      no_faults db_ex)))) = Some 0 /\
  option_map Route.TimeoutMS
    (List.find (MySQLStore.id_is 2)
       (routes (snd (run (CreateRoute pt0 (req_op [] (route_fields "account")))
                      no_faults db_ex)))) = Some 5000.
Proof. split; [repeat constructor|]. vm_compute. split; reflexivity. Qed.

(** Newest first: [created_at] does not increase along the list. *)
Lemma insert_desc_perm (h : ConfigHistory.t) (l : list ConfigHistory.t) :
  Permutation (MySQLStore.insert_desc h l) (h :: l).
Proof.
  induction l as [|x l IH]; simpl; [reflexivity|].
  destruct (_ <? _); [reflexivity|].
  rewrite IH. apply perm_swap.
Qed.

Lemma order_created_desc_perm (l : list ConfigHistory.t) :
  Permutation (MySQLStore.order_created_desc l) l.
Proof.
  induction l as [|h l IH]; simpl; [reflexivity|].
  rewrite insert_desc_perm, IH. reflexivity.
Qed.

Lemma insert_desc_hd (x h : ConfigHistory.t) (l : list ConfigHistory.t) :
  HdRel newest_first x l -> newest_first x h -> HdRel newest_first x (MySQLStore.insert_desc h l).
Proof.
  intros Hd Hxh. destruct l as [|y l]; simpl; [constructor; exact Hxh|].
  destruct (_ <? _); constructor; [exact Hxh | inversion Hd; assumption].
Qed.

Lemma insert_desc_sorted (h : ConfigHistory.t) (l : list ConfigHistory.t) :
  Sorted newest_first l -> Sorted newest_first (MySQLStore.insert_desc h l).
Proof.
  induction l as [|x l IH]; simpl; intros Hs; [repeat constructor|].
  destruct (ConfigHistory.CreatedAt x <? ConfigHistory.CreatedAt h) eqn:Hlt.
  - apply Z.ltb_lt in Hlt. constructor; [exact Hs|]. constructor. unfold newest_first. lia.
  - apply Z.ltb_ge in Hlt. apply Sorted_inv in Hs as [Hs Hd].
    constructor; [exact (IH Hs)|]. apply insert_desc_hd; [exact Hd|]. exact Hlt.
Qed.

Lemma order_created_desc_sorted (l : list ConfigHistory.t) :
  Sorted newest_first (MySQLStore.order_created_desc l).
Proof.
  induction l as [|h l IH]; simpl; [constructor|]. apply insert_desc_sorted, IH.
Qed.

Lemma skipn_sorted (n : nat) (l : list ConfigHistory.t) :
  Sorted newest_first l -> Sorted newest_first (skipn n l).
Proof.
  revert l. induction n as [|n IH]; intros [|x l] Hs; simpl; try exact Hs.
  apply IH. exact (proj1 (Sorted_inv Hs)).
Qed.

Lemma firstn_sorted (n : nat) (l : list ConfigHistory.t) :
  Sorted newest_first l -> Sorted newest_first (firstn n l).
Proof.
  revert l. induction n as [|n IH]; intros [|x l] Hs; simpl; try constructor.
  - apply IH. exact (proj1 (Sorted_inv Hs)).
  - apply Sorted_inv in Hs as [_ Hd].
    destruct n, l; simpl; constructor. inversion Hd. assumption.
Qed.

Lemma history_where_iff (ct : option string) (cid : option Z) (h : ConfigHistory.t) :
  MySQLStore.history_where ct cid h = true <->
  (forall t, ct = Some t -> ConfigHistory.ConfigType h = t) /\
  (forall i, cid = Some i -> ConfigHistory.ConfigID h = Some i).
Proof.
  unfold MySQLStore.history_where. rewrite Bool.andb_true_iff.
  split.
  - intros [Ht Hi]. split.
    + intros t ->. apply String.eqb_eq. exact Ht.
    + intros i ->. destruct (ConfigHistory.ConfigID h) as [j|]; [|discriminate].
      apply Z.eqb_eq in Hi. subst. reflexivity.
  - intros [Ht Hi]. split.
    + destruct ct as [t|]; [|reflexivity]. apply String.eqb_eq, Ht. reflexivity.
    + destruct cid as [i|]; [|reflexivity]. rewrite (Hi i eq_refl). apply Z.eqb_refl.
Qed.

(** C9: a successful history query returns, as total, the number of
    history rows that pass both filters (a filter given as [None] passes
    every row); a row passes exactly when it has the given config_type
    (if any) and the given config_id (if any). The page is the slice
    [offset, offset + limit) of an ordering of exactly those rows that is
    newest first by created_at, so it has at most [limit] items, all of
    them matching rows. *)
Theorem C9_history_query (ct : option string) (cid : option Z) (limit offset : Z)
    (db : DB) (items : list ConfigHistory.t) (total : Z) :
  fst (MySQLStore.GetHistory ct cid limit offset db) = inr (items, total) ->
  let matching := List.filter (MySQLStore.history_where ct cid) (config_history db) in
  (forall h, MySQLStore.history_where ct cid h = true <->
             (forall t, ct = Some t -> ConfigHistory.ConfigType h = t) /\
             (forall i, cid = Some i -> ConfigHistory.ConfigID h = Some i)) /\
  total = Z.of_nat (length matching) /\
  (exists ordered,
     Permutation ordered matching /\
     Sorted newest_first ordered /\
     items = firstn (Z.to_nat limit) (skipn (Z.to_nat offset) ordered)) /\
  Sorted newest_first items /\
  Z.of_nat (length items) <= limit /\
  (forall h, In h items -> In h (config_history db) /\ MySQLStore.history_where ct cid h = true).
Proof.
  unfold MySQLStore.GetHistory.
  destruct ((limit <? 0) || (offset <? 0)) eqn:Hneg; simpl; [discriminate|].
  case_match; simpl; [discriminate|].
  intros Heq. injection Heq as <- <-.
  set (matching := List.filter (MySQLStore.history_where ct cid) (config_history db)).
  apply Bool.orb_false_iff in Hneg as [Hl _]. apply Z.ltb_ge in Hl.
  split; [intros h; apply history_where_iff|].
  split; [reflexivity|].
  split; [exists (MySQLStore.order_created_desc matching);
          split; [apply order_created_desc_perm|];
          split; [apply order_created_desc_sorted | reflexivity]|].
  split; [apply firstn_sorted, skipn_sorted, order_created_desc_sorted|].
  split; [rewrite length_firstn; lia|].
  intros h Hin.
  assert (Hin' : forall n (l : list ConfigHistory.t), In h (firstn n l) \/ In h (skipn n l) -> In h l).
  { intros n l Hnl. rewrite <- (firstn_skipn n l). apply in_or_app. exact Hnl. }
  apply (fun H => Hin' _ _ (or_introl H)) in Hin. apply (fun H => Hin' _ _ (or_intror H)) in Hin.
  apply (Permutation_in _ (order_created_desc_perm matching)) in Hin.
  exact (proj1 (filter_In _ _ _) Hin).
Qed.

(** C9, at a concrete input: four history rows, the query
    [config_type = backend, config_id = 7, limit = 1, offset = 0] gives
    the newest matching row and the total 2. *)
Lemma C9_witness :
  let v := Some (SBackend acct) in
  let rows := [ConfigHistory.mk 1 "backend" (Some 7) "UPDATE" v v "alice" 10;
               ConfigHistory.mk 2 "route" (Some 7) "UPDATE" v v "alice" 20;
               ConfigHistory.mk 3 "backend" (Some 7) "UPDATE" v v "bob" 30;
               ConfigHistory.mk 4 "backend" (Some 8) "UPDATE" v v "bob" 40] in
  let db := mkDB [] [] rows 1 1 5 (fun _ => 50) 0 (fun _ => 50) 0 in
  let items := [ConfigHistory.mk 3 "backend" (Some 7) "UPDATE" v v "bob" 30] in
  fst (MySQLStore.GetHistory (Some "backend") (Some 7) 1 0 db) = inr (items, 2) /\
  let matching := List.filter (MySQLStore.history_where (Some "backend") (Some 7))
                    (config_history db) in
  (forall h, MySQLStore.history_where (Some "backend") (Some 7) h = true <->
             (forall t, Some "backend" = Some t -> ConfigHistory.ConfigType h = t) /\
             (forall i, Some 7 = Some i -> ConfigHistory.ConfigID h = Some i)) /\
  2 = Z.of_nat (length matching) /\
  (exists ordered,
     Permutation ordered matching /\
     Sorted newest_first ordered /\
     items = firstn (Z.to_nat 1) (skipn (Z.to_nat 0) ordered)) /\
  Sorted newest_first items /\
  Z.of_nat (length items) <= 1 /\
  (forall h, In h items -> In h (config_history db) /\
                           MySQLStore.history_where (Some "backend") (Some 7) h = true).
Proof.
  intros v rows db items.
  split; [vm_compute; reflexivity|].
  apply (C9_history_query (Some "backend") (Some 7) 1 0 db items 2).
  vm_compute. reflexivity.
Defined.




Lemma scan_error_null (page : list ConfigHistory.t) (h : ConfigHistory.t) :
  In h page -> ConfigHistory.OldValue h = None \/ ConfigHistory.NewValue h = None ->
  exists e, MySQLStore.scan_error page = Some e.
Proof.
  induction page as [|x page IH]; simpl; [intros []|].
  intros [-> | Hin] Hn.
  - destruct Hn as [-> | Hn]; [eexists; reflexivity|].
    destruct (ConfigHistory.OldValue h); rewrite ?Hn; eexists; reflexivity.
  - destruct (ConfigHistory.OldValue x), (ConfigHistory.NewValue x);
      try (eexists; reflexivity). exact (IH Hin Hn).
Qed.

(** X19: an unfiltered history listing with the default limit and offset
    answers 500 "internal server error", with the store unchanged,
    whenever its page (the 50 newest rows) holds a row without old_value
    or without new_value, as every CREATE and DELETE row does: [rows.Scan]
    cannot store a NULL column into the [json.RawMessage] fields. *)
Theorem X19_history_null_value_500 (flt : Faults) (db : DB) (r : Request) (h : ConfigHistory.t) :
  flt OpGetHistory = false ->
  query_get r "config_type" = "" -> query_get r "config_id" = "" ->
  query_get r "limit" = "" -> query_get r "offset" = "" ->
  In h (firstn 50 (MySQLStore.order_created_desc
                     (List.filter (MySQLStore.history_where None None) (config_history db)))) ->
  ConfigHistory.OldValue h = None \/ ConfigHistory.NewValue h = None ->
  run (ListHistory r) flt db = (HttpError 500 "internal server error", db).
Proof.
  intros Hflt Ht Hi Hl Ho Hin Hn.
  destruct (scan_error_null _ _ Hin Hn) as [e He].
  unfold run, ListHistory. autounfold with handlers.
  rewrite Ht, Hi, Hl, Ho. simpl. rewrite Hflt.
  assert (He' : MySQLStore.scan_error (firstn (Z.to_nat 50) (skipn (Z.to_nat 0)
                  (MySQLStore.order_created_desc
                     (List.filter (MySQLStore.history_where None None) (config_history db)))))
                = Some e) by exact He.
  unfold MySQLStore.GetHistory. simpl. rewrite He'. reflexivity.
Qed.

Lemma X19_witness :
  run (ListHistory (mkReq [] [] None)) no_faults
    (snd (run (CreateBackend pt0 (req_op []
       [("name", JStr "search"); ("addr", JStr "127.0.0.1:50053")])) no_faults db_ex)) =
  (HttpError 500 "internal server error",
   snd (run (CreateBackend pt0 (req_op []
       [("name", JStr "search"); ("addr", JStr "127.0.0.1:50053")])) no_faults db_ex)).
Proof.
  apply (X19_history_null_value_500 no_faults _ (mkReq [] [] None)
           (ConfigHistory.mk 1 "backend" (Some 3) "CREATE" None
              (Some (SBackend (Backend.mk 3 "search" "127.0.0.1:50053" "" true 100 100)))
              "alice" 100));
    try reflexivity.
  - vm_compute. left. reflexivity.
  - left. reflexivity.
Defined.

(* ------------------------------------------------------------------ *)
(** ** Properties kept by every path of a handler *)

Section Keeps.
Variable R : DB -> DB -> Prop.
Hypothesis R_refl : forall db, R db db.
Hypothesis R_trans : forall a b c, R a b -> R b c -> R a c.

Lemma keeps_ret {A} (a : A) : keeps R (ret_M a).
Proof. intros flt db. apply R_refl. Qed.

Lemma keeps_http_error {A} (s : Z) (m : string) : keeps R (@http_error A s m).
Proof. intros flt db. apply R_refl. Qed.

Lemma keeps_bind {A B} (m : M A) (k : A -> M B) :
  keeps R m -> (forall a, keeps R (k a)) -> keeps R (bind_M m k).
Proof.
  intros Hm Hk flt db. unfold bind_M.
  specialize (Hm flt db).
  destruct (m flt db) as [[o|a] d]; simpl in *; [exact Hm|].
  exact (R_trans _ _ _ Hm (Hk a flt d)).
Qed.

Lemma keeps_call {A} (op : StoreOp) (f : DB -> (Error + A) * DB) :
  (forall db, R db (snd (f db))) -> keeps R (call op f).
Proof.
  intros Hf flt db. unfold call.
  destruct (flt op); [apply R_refl|].
  specialize (Hf db). destruct (f db). exact Hf.
Qed.
End Keeps.

Lemma snd_run (m : M Outcome) (flt : Faults) (db : DB) : snd (run m flt db) = snd (m flt db).
Proof. unfold run. destruct (m flt db) as [[] ?]; reflexivity. Qed.

(** Split a [keeps] goal along the handler's code, closing the store
    calls with [store_tac]. *)
Ltac keeps_tac store_tac :=
  repeat (cbv beta zeta;
    first
    [ apply keeps_bind; [assumption | | intros ?]
    | apply keeps_ret; assumption
    | apply keeps_http_error; assumption
    | apply keeps_call; [assumption | store_tac]
    | progress unfold recordHistory, not_found_or_500, enabled_param,
        store_GetBackendByName, store_CreateBackend, store_UpdateBackend,
        store_DeleteBackend, store_GetRouteByID, store_CreateRoute, store_UpdateRoute,
        store_DeleteRoute, store_CreateHistory, store_GetHistory,
        store_GetBackends, store_GetRoutes
    | match goal with
      | |- keeps _ (match ?x with _ => _ end) => destruct x
      | |- keeps _ (if ?x then _ else _) => destruct x
      end ]).

Lemma unchanged_refl (db : DB) : unchanged db db.
Proof. reflexivity. Qed.

Lemma unchanged_trans (a b c : DB) : unchanged a b -> unchanged b c -> unchanged a c.
Proof. unfold unchanged. congruence. Qed.


Lemma map_proj_same {A B} (g : A -> B) (f : A -> A) (l : list A) :
  (forall x, g (f x) = g x) -> map g (map f l) = map g l.
Proof. intros Hf. rewrite map_map. apply map_ext. exact Hf. Qed.

Lemma nodup_snoc {A} (l : list A) (x : A) : NoDup l -> ~ In x l -> NoDup (l ++ [x]).
Proof.
  intros Hl Hx. apply NoDup_app. split; [exact Hl|].
  split; [|apply NoDup_singleton].
  intros y Hy Hy'. apply list_elem_of_singleton in Hy'. subst y.
  apply Hx. apply list_elem_of_In. exact Hy.
Qed.

Lemma below_not_in (l : list Z) (c : Z) : Forall (fun i => i < c) l -> ~ In c l.
Proof.
  intros Hf Hin. rewrite List.Forall_forall in Hf. specialize (Hf c Hin). lia.
Qed.

Lemma below_snoc (l : list Z) (c : Z) :
  Forall (fun i => i < c) l -> Forall (fun i => i < c + 1) (l ++ [c]).
Proof.
  intros Hf. apply Forall_app. split; [|constructor; [lia | constructor]].
  eapply List.Forall_impl; [|exact Hf]. simpl. intros; lia.
Qed.

(** [ids_ok] over the id columns. *)
Lemma ids_ok_cols (db : DB) :
  ids_ok db <->
  NoDup (map Backend.ID (backends db)) /\
  Forall (fun i => i < backend_auto db) (map Backend.ID (backends db)) /\
  NoDup (map Route.ID (routes db)) /\
  Forall (fun i => i < route_auto db) (map Route.ID (routes db)) /\
  NoDup (map ConfigHistory.ID (config_history db)) /\
  Forall (fun i => i < history_auto db) (map ConfigHistory.ID (config_history db)).
Proof. unfold ids_ok. rewrite !Forall_map. reflexivity. Qed.

Lemma update_row_ids (b : Backend.t) (t : Z) (name : string) (l : list Backend.t) :
  map Backend.ID (map (fun row => if MySQLStore.name_is name row
                                  then MySQLStore.update_row b t row else row) l) =
  map Backend.ID l.
Proof. apply map_proj_same. intros x. destruct (MySQLStore.name_is name x); reflexivity. Qed.

Lemma delete_row_ids (t : Z) (name : string) (l : list Backend.t) :
  map Backend.ID (map (fun row => if MySQLStore.name_is name row
                                  then b_set_UpdatedAt t (b_set_Enabled false row) else row) l) =
  map Backend.ID l.
Proof. apply map_proj_same. intros x. destruct (MySQLStore.name_is name x); reflexivity. Qed.

Lemma update_route_row_ids (rt : Route.t) (t id : Z) (l : list Route.t) :
  map Route.ID (map (fun row => if MySQLStore.id_is id row
                                then MySQLStore.update_route_row rt t row else row) l) =
  map Route.ID l.
Proof. apply map_proj_same. intros x. destruct (MySQLStore.id_is id x); reflexivity. Qed.

Lemma delete_route_row_ids (t id : Z) (l : list Route.t) :
  map Route.ID (map (fun row => if MySQLStore.id_is id row
                                then r_set_UpdatedAt t (r_set_Enabled false row) else row) l) =
  map Route.ID l.
Proof. apply map_proj_same. intros x. destruct (MySQLStore.id_is id x); reflexivity. Qed.

Ltac id_cols :=
  rewrite ?update_row_ids, ?delete_row_ids, ?update_route_row_ids, ?delete_route_row_ids,
    ?map_app.

(** Every store operation keeps [ids_ok]. *)
Ltac store_ids :=
  intros db0;
  first
  [ unfold MySQLStore.CreateBackend, MySQLStore.CreateRoute, MySQLStore.CreateHistory;
    unfold keeps_ids_ok; rewrite !ids_ok_cols; simpl; id_cols; simpl;
    intros (H1 & H2 & H3 & H4 & H5 & H6);
    repeat split; try assumption;
    first [ apply nodup_snoc; [assumption | apply below_not_in; assumption]
          | apply below_snoc; assumption ]
  | unfold MySQLStore.UpdateBackend, MySQLStore.DeleteBackend, MySQLStore.UpdateRoute,
      MySQLStore.DeleteRoute, MySQLStore.GetHistory;
    destruct (_ : bool); unfold keeps_ids_ok; simpl; [exact (fun H => H)|];
    try (destruct (MySQLStore.scan_error _); exact (fun H => H));
    rewrite !ids_ok_cols; simpl; id_cols; exact (fun H => H)
  | exact (fun H => H) ].

Lemma keeps_ids_ok_refl (db : DB) : keeps_ids_ok db db.
Proof. exact (fun H => H). Qed.

Lemma keeps_ids_ok_trans (a b c : DB) : keeps_ids_ok a b -> keeps_ids_ok b c -> keeps_ids_ok a c.
Proof. unfold keeps_ids_ok. auto. Qed.

Lemma extends_refl (db : DB) : extends db db.
Proof. repeat split; exists []; rewrite app_nil_r; reflexivity. Qed.

Lemma extends_trans (a b c : DB) : extends a b -> extends b c -> extends a c.
Proof.
  intros ((s1 & H1) & (s2 & H2) & (s3 & H3)) ((t1 & G1) & (t2 & G2) & (t3 & G3)).
  repeat split; [exists (s1 ++ t1) | exists (s2 ++ t2) | exists (s3 ++ t3)];
    rewrite app_assoc; congruence.
Qed.

Ltac store_extends :=
  intros db0;
  first
  [ unfold MySQLStore.CreateBackend, MySQLStore.CreateRoute, MySQLStore.CreateHistory;
    unfold extends; simpl; rewrite ?map_app;
    repeat split; eexists; first [reflexivity | rewrite app_nil_r; reflexivity]
  | unfold MySQLStore.UpdateBackend, MySQLStore.DeleteBackend, MySQLStore.UpdateRoute,
      MySQLStore.DeleteRoute, MySQLStore.GetHistory;
    destruct (_ : bool); simpl; [apply extends_refl|];
    try (destruct (MySQLStore.scan_error _); apply extends_refl);
    unfold extends; simpl; id_cols;
    repeat split; exists []; rewrite app_nil_r; reflexivity
  | apply extends_refl ].


Lemma UpdateBackend_err (name : string) (b : Backend.t) (db d : DB) (e : Error) :
  MySQLStore.UpdateBackend name b db = (inl e, d) -> d = db.
Proof. unfold MySQLStore.UpdateBackend. destruct (Nat.eqb _ 0); simpl; congruence. Qed.

Lemma DeleteBackend_err (name : string) (db d : DB) (e : Error) :
  MySQLStore.DeleteBackend name db = (inl e, d) -> d = db.
Proof. unfold MySQLStore.DeleteBackend. destruct (Nat.eqb _ 0); simpl; congruence. Qed.

Lemma UpdateRoute_err (id : Z) (rt : Route.t) (db d : DB) (e : Error) :
  MySQLStore.UpdateRoute id rt db = (inl e, d) -> d = db.
Proof. unfold MySQLStore.UpdateRoute. destruct (Nat.eqb _ 0); simpl; congruence. Qed.

Lemma DeleteRoute_err (id : Z) (db d : DB) (e : Error) :
  MySQLStore.DeleteRoute id db = (inl e, d) -> d = db.
Proof. unfold MySQLStore.DeleteRoute. destruct (Nat.eqb _ 0); simpl; congruence. Qed.

Ltac use_store_errors :=
  repeat match goal with
  | Hs : MySQLStore.UpdateBackend _ _ _ = (inl _, _) |- _ => apply UpdateBackend_err in Hs; subst
  | Hs : MySQLStore.DeleteBackend _ _ = (inl _, _) |- _ => apply DeleteBackend_err in Hs; subst
  | Hs : MySQLStore.UpdateRoute _ _ _ = (inl _, _) |- _ => apply UpdateRoute_err in Hs; subst
  | Hs : MySQLStore.DeleteRoute _ _ = (inl _, _) |- _ => apply DeleteRoute_err in Hs; subst
  end.

(** Close a leaf of a handler run: an error with the store as it was, or
    the handler's success answer. *)
Ltac close_cases H :=
  injection H as <- <-; use_store_errors;
  first [ left; do 2 eexists; reflexivity | right; do 2 eexists; reflexivity ].

Section Cases.
Variable parse_time : string -> option Z.

Lemma create_backend_cases (flt : Faults) (db : DB) (r : Request) :
  (exists s m, run (CreateBackend parse_time r) flt db = (HttpError s m, db)) \/
  (exists b d, run (CreateBackend parse_time r) flt db = (Respond 201 (BBackend b), d)).
Proof.
  destruct (run (CreateBackend parse_time r) flt db) as [o d] eqn:H.
  unfold CreateBackend in H. split_run H. all: close_cases H.
Qed.

Lemma update_backend_cases (flt : Faults) (db : DB) (name : string) (r : Request) :
  (exists s m, run (UpdateBackend parse_time name r) flt db = (HttpError s m, db)) \/
  (exists b d, run (UpdateBackend parse_time name r) flt db = (Respond 200 (BBackend b), d)).
Proof.
  destruct (run (UpdateBackend parse_time name r) flt db) as [o d] eqn:H.
  unfold UpdateBackend in H. split_run H. all: close_cases H.
Qed.

Lemma delete_backend_cases (flt : Faults) (db : DB) (name : string) (r : Request) :
  (exists s m, run (DeleteBackend name r) flt db = (HttpError s m, db)) \/
  (exists d, run (DeleteBackend name r) flt db = (Respond 204 BNone, d)).
Proof.
  destruct (run (DeleteBackend name r) flt db) as [o d] eqn:H.
  unfold DeleteBackend in H. split_run H. all: injection H as <- <-; use_store_errors.
  all: first [ left; do 2 eexists; reflexivity | right; eexists; reflexivity ].
Qed.

Lemma create_route_cases (flt : Faults) (db : DB) (r : Request) :
  (exists s m, run (CreateRoute parse_time r) flt db = (HttpError s m, db)) \/
  (exists rt d, run (CreateRoute parse_time r) flt db = (Respond 201 (BRoute rt), d)).
Proof.
  destruct (run (CreateRoute parse_time r) flt db) as [o d] eqn:H.
  unfold CreateRoute in H. split_run H. all: close_cases H.
Qed.

Lemma update_route_cases (flt : Faults) (db : DB) (idStr : string) (r : Request) :
  (exists s m, run (UpdateRoute parse_time idStr r) flt db = (HttpError s m, db)) \/
  (exists rt d, run (UpdateRoute parse_time idStr r) flt db = (Respond 200 (BRoute rt), d)).
Proof.
  destruct (run (UpdateRoute parse_time idStr r) flt db) as [o d] eqn:H.
  unfold UpdateRoute in H. split_run H. all: close_cases H.
Qed.

Lemma delete_route_cases (flt : Faults) (db : DB) (idStr : string) (r : Request) :
  (exists s m, run (DeleteRoute idStr r) flt db = (HttpError s m, db)) \/
  (exists d, run (DeleteRoute idStr r) flt db = (Respond 204 BNone, d)).
Proof.
  destruct (run (DeleteRoute idStr r) flt db) as [o d] eqn:H.
  unfold DeleteRoute in H. split_run H. all: injection H as <- <-; use_store_errors.
  all: first [ left; do 2 eexists; reflexivity | right; eexists; reflexivity ].
Qed.
End Cases.

Ltac store_unchanged :=
  intros db0; unfold unchanged;
  first [ reflexivity
        | unfold MySQLStore.GetHistory; destruct (_ : bool);
          [ reflexivity | destruct (MySQLStore.scan_error _); reflexivity ] ].

Ltac store_same_table :=
  intros db0; unfold same_routes, same_backends;
  first
  [ reflexivity
  | unfold MySQLStore.GetHistory; destruct (_ : bool);
    [ reflexivity | destruct (MySQLStore.scan_error _); reflexivity ]
  | unfold MySQLStore.UpdateBackend, MySQLStore.DeleteBackend, MySQLStore.UpdateRoute,
      MySQLStore.DeleteRoute;
    destruct (Nat.eqb _ 0); reflexivity ].

Lemma same_routes_refl (db : DB) : same_routes db db.
Proof. reflexivity. Qed.
Lemma same_routes_trans (a b c : DB) : same_routes a b -> same_routes b c -> same_routes a c.
Proof. unfold same_routes. congruence. Qed.
Lemma same_backends_refl (db : DB) : same_backends db db.
Proof. reflexivity. Qed.
Lemma same_backends_trans (a b c : DB) : same_backends a b -> same_backends b c -> same_backends a c.
Proof. unfold same_backends. congruence. Qed.

Ltac split_conj := repeat match goal with |- _ /\ _ => split end.

(** X1: the read endpoints (backend and route listing and lookup, history
    listing) never change the store, whatever their input and whatever
    store calls fail. *)
Theorem X1_read_handlers_read_only (coll_le : string -> string -> bool) (flt : Faults)
    (db : DB) (r : Request) (name idStr : string) :
  snd (ListBackends coll_le r flt db) = db /\
  snd (ListRoutes coll_le r flt db) = db /\
  snd (run (GetBackend name) flt db) = db /\
  snd (run (GetRoute idStr) flt db) = db /\
  snd (run (ListHistory r) flt db) = db.
Proof.
  pose proof unchanged_refl. pose proof unchanged_trans.
  assert (Hk : keeps unchanged (ListBackends coll_le r) /\ keeps unchanged (ListRoutes coll_le r) /\
               keeps unchanged (GetBackend name) /\ keeps unchanged (GetRoute idStr) /\
               keeps unchanged (ListHistory r)).
  { unfold ListBackends, ListRoutes, GetBackend, GetRoute, ListHistory.
    split_conj; keeps_tac store_unchanged. }
  destruct Hk as (H1 & H2 & H3 & H4 & H5).
  rewrite !snd_run. split_conj; [apply H1 | apply H2 | apply H3 | apply H4 | apply H5].
Qed.

(** X2: a create, update or delete of a Backend or Route that answers
    with an HTTP error leaves the store exactly as it was: no entity row
    and no history row is written on any error path. *)
Theorem X2_errors_write_nothing (parse_time : string -> option Z) (flt : Faults) (db : DB)
    (r : Request) (name idStr : string) (s : Z) (m : string) :
  (fst (run (CreateBackend parse_time r) flt db) = HttpError s m ->
   snd (run (CreateBackend parse_time r) flt db) = db) /\
  (fst (run (UpdateBackend parse_time name r) flt db) = HttpError s m ->
   snd (run (UpdateBackend parse_time name r) flt db) = db) /\
  (fst (run (DeleteBackend name r) flt db) = HttpError s m ->
   snd (run (DeleteBackend name r) flt db) = db) /\
  (fst (run (CreateRoute parse_time r) flt db) = HttpError s m ->
   snd (run (CreateRoute parse_time r) flt db) = db) /\
  (fst (run (UpdateRoute parse_time idStr r) flt db) = HttpError s m ->
   snd (run (UpdateRoute parse_time idStr r) flt db) = db) /\
  (fst (run (DeleteRoute idStr r) flt db) = HttpError s m ->
   snd (run (DeleteRoute idStr r) flt db) = db).
Proof.
  split_conj; intros He.
  - destruct (create_backend_cases parse_time flt db r) as [(? & ? & Hr) | (? & ? & Hr)];
      rewrite Hr in *; [reflexivity | discriminate He].
  - destruct (update_backend_cases parse_time flt db name r) as [(? & ? & Hr) | (? & ? & Hr)];
      rewrite Hr in *; [reflexivity | discriminate He].
  - destruct (delete_backend_cases flt db name r) as [(? & ? & Hr) | (? & Hr)];
      rewrite Hr in *; [reflexivity | discriminate He].
  - destruct (create_route_cases parse_time flt db r) as [(? & ? & Hr) | (? & ? & Hr)];
      rewrite Hr in *; [reflexivity | discriminate He].
  - destruct (update_route_cases parse_time flt db idStr r) as [(? & ? & Hr) | (? & ? & Hr)];
      rewrite Hr in *; [reflexivity | discriminate He].
  - destruct (delete_route_cases flt db idStr r) as [(? & ? & Hr) | (? & Hr)];
      rewrite Hr in *; [reflexivity | discriminate He].
Qed.

(** X2, at a concrete input: updating the missing backend [search]. *)
Lemma X2_witness :
  fst (run (UpdateBackend pt0 "search" (req_op [] upd_addr_only)) no_faults db_ex) =
    HttpError 404 "backend not found" /\
  snd (run (UpdateBackend pt0 "search" (req_op [] upd_addr_only)) no_faults db_ex) = db_ex.
Proof.
  split; [vm_compute; reflexivity|].
  apply (proj1 (proj2 (X2_errors_write_nothing pt0 no_faults db_ex (req_op [] upd_addr_only)
                         "search" "1" 404 "backend not found"))).
  vm_compute. reflexivity.
Defined.

(** X3: every create, update and delete keeps the row ids of each table
    (backends, routes, history) unique and below the table's
    AUTO_INCREMENT counter, on every path and whatever store calls fail. *)
Theorem X3_ids_stay_unique (parse_time : string -> option Z) (flt : Faults) (db : DB)
    (r : Request) (name idStr : string) :
  ids_ok db ->
  ids_ok (snd (run (CreateBackend parse_time r) flt db)) /\
  ids_ok (snd (run (UpdateBackend parse_time name r) flt db)) /\
  ids_ok (snd (run (DeleteBackend name r) flt db)) /\
  ids_ok (snd (run (CreateRoute parse_time r) flt db)) /\
  ids_ok (snd (run (UpdateRoute parse_time idStr r) flt db)) /\
  ids_ok (snd (run (DeleteRoute idStr r) flt db)).
Proof.
  intros Hok. pose proof keeps_ids_ok_refl. pose proof keeps_ids_ok_trans.
  assert (Hk : keeps keeps_ids_ok (CreateBackend parse_time r) /\
               keeps keeps_ids_ok (UpdateBackend parse_time name r) /\
               keeps keeps_ids_ok (DeleteBackend name r) /\
               keeps keeps_ids_ok (CreateRoute parse_time r) /\
               keeps keeps_ids_ok (UpdateRoute parse_time idStr r) /\
               keeps keeps_ids_ok (DeleteRoute idStr r)).
  { unfold CreateBackend, UpdateBackend, DeleteBackend, CreateRoute, UpdateRoute, DeleteRoute.
    split_conj; keeps_tac store_ids. }
  destruct Hk as (H1 & H2 & H3 & H4 & H5 & H6). rewrite !snd_run.
  split_conj; [apply H1 | apply H2 | apply H3 | apply H4 | apply H5 | apply H6]; exact Hok.
Qed.

(** X4: the tables only grow at the end: a create, update or delete never
    removes or moves a backend or route row (the ids read in table order
    are a prefix of the ids afterwards) and never changes or removes a
    history row, on every path and whatever store calls fail. *)
Theorem X4_rows_never_removed (parse_time : string -> option Z) (flt : Faults) (db : DB)
    (r : Request) (name idStr : string) :
  extends db (snd (run (CreateBackend parse_time r) flt db)) /\
  extends db (snd (run (UpdateBackend parse_time name r) flt db)) /\
  extends db (snd (run (DeleteBackend name r) flt db)) /\
  extends db (snd (run (CreateRoute parse_time r) flt db)) /\
  extends db (snd (run (UpdateRoute parse_time idStr r) flt db)) /\
  extends db (snd (run (DeleteRoute idStr r) flt db)).
Proof.
  pose proof extends_refl. pose proof extends_trans. rewrite !snd_run.
  unfold CreateBackend, UpdateBackend, DeleteBackend, CreateRoute, UpdateRoute, DeleteRoute.
  split_conj; match goal with |- extends _ (snd (?m flt db)) => revert flt db; change (keeps extends m) end;
    keeps_tac store_extends.
Qed.

(** X5: backend handlers never change the route table and route handlers
    never change the backend table. In particular deleting a backend
    leaves every route naming it as it was (an enabled route stays
    enabled). *)
Theorem X5_tables_separate (parse_time : string -> option Z) (flt : Faults) (db : DB)
    (r : Request) (name idStr : string) :
  routes (snd (run (CreateBackend parse_time r) flt db)) = routes db /\
  routes (snd (run (UpdateBackend parse_time name r) flt db)) = routes db /\
  routes (snd (run (DeleteBackend name r) flt db)) = routes db /\
  backends (snd (run (CreateRoute parse_time r) flt db)) = backends db /\
  backends (snd (run (UpdateRoute parse_time idStr r) flt db)) = backends db /\
  backends (snd (run (DeleteRoute idStr r) flt db)) = backends db.
Proof.
  pose proof same_routes_refl. pose proof same_routes_trans.
  pose proof same_backends_refl. pose proof same_backends_trans. rewrite !snd_run.
  unfold CreateBackend, UpdateBackend, DeleteBackend, CreateRoute, UpdateRoute, DeleteRoute.
  split_conj;
    match goal with
    | |- routes (snd (?m flt db)) = _ => revert flt db; change (keeps same_routes m)
    | |- backends (snd (?m flt db)) = _ => revert flt db; change (keeps same_backends m)
    end;
    keeps_tac store_same_table.
Qed.

Lemma ids_ok_db_ex : ids_ok db_ex.
Proof.
  unfold ids_ok; simpl. split_conj; repeat constructor; try set_solver; lia.
Qed.

(** X3, at a concrete input: the handlers run on [db_ex] with the body
    of the login route. *)
Lemma X3_witness :
  ids_ok db_ex /\
  ids_ok (snd (run (CreateBackend pt0 (req_op [] (route_fields "account"))) no_faults db_ex)) /\
  ids_ok (snd (run (UpdateBackend pt0 "account" (req_op [] (route_fields "account"))) no_faults db_ex)) /\
  ids_ok (snd (run (DeleteBackend "account" (req_op [] (route_fields "account"))) no_faults db_ex)) /\
  ids_ok (snd (run (CreateRoute pt0 (req_op [] (route_fields "account"))) no_faults db_ex)) /\
  ids_ok (snd (run (UpdateRoute pt0 "1" (req_op [] (route_fields "account"))) no_faults db_ex)) /\
  ids_ok (snd (run (DeleteRoute "1" (req_op [] (route_fields "account"))) no_faults db_ex)).
Proof.
  split; [exact ids_ok_db_ex|].
  exact (X3_ids_stay_unique pt0 no_faults db_ex _ "account" "1" ids_ok_db_ex).
Defined.

Lemma update_row_names (b : Backend.t) (t : Z) (name : string) (l : list Backend.t) :
  map Backend.Name (map (fun row => if MySQLStore.name_is name row
                                    then MySQLStore.update_row b t row else row) l) =
  map Backend.Name l.
Proof. apply map_proj_same. intros x. destruct (MySQLStore.name_is name x); reflexivity. Qed.

Lemma delete_row_names (t : Z) (name : string) (l : list Backend.t) :
  map Backend.Name (map (fun row => if MySQLStore.name_is name row
                                    then b_set_UpdatedAt t (b_set_Enabled false row) else row) l) =
  map Backend.Name l.
Proof. apply map_proj_same. intros x. destruct (MySQLStore.name_is name x); reflexivity. Qed.

Lemma find_none_not_in_names (name : string) (l : list Backend.t) :
  List.find (MySQLStore.name_is name) l = None -> ~ In name (map Backend.Name l).
Proof.
  intros Hf Hin. apply in_map_iff in Hin as (b & Hb & Hin).
  pose proof (List.find_none _ _ Hf b Hin) as Hn.
  unfold MySQLStore.name_is in Hn. rewrite Hb, String.eqb_refl in Hn. discriminate.
Qed.

Lemma find_app_none {A} (P : A -> bool) (l : list A) (x : A) :
  List.find P l = None -> P x = true -> List.find P (l ++ [x]) = Some x.
Proof.
  intros Hf Hx. induction l as [|y l IH]; simpl in *; [rewrite Hx; reflexivity|].
  destruct (P y); [discriminate | exact (IH Hf)].
Qed.

(** X6: every create, update and delete keeps backend names unique: no two
    backend rows share a name afterwards if none did before. *)
Theorem X6_backend_names_unique (parse_time : string -> option Z) (flt : Faults) (db : DB)
    (r : Request) (name idStr : string) :
  names_unique db ->
  names_unique (snd (run (CreateBackend parse_time r) flt db)) /\
  names_unique (snd (run (UpdateBackend parse_time name r) flt db)) /\
  names_unique (snd (run (DeleteBackend name r) flt db)) /\
  names_unique (snd (run (CreateRoute parse_time r) flt db)) /\
  names_unique (snd (run (UpdateRoute parse_time idStr r) flt db)) /\
  names_unique (snd (run (DeleteRoute idStr r) flt db)).
Proof.
  intros Hu. unfold names_unique in *.
  destruct (X5_tables_separate parse_time flt db r name idStr) as (_ & _ & _ & H4 & H5 & H6).
  rewrite H4, H5, H6. split_conj; try exact Hu.
  - destruct (create_backend_cases parse_time flt db r) as [(? & ? & Hr) | (b & d & Hr)];
      rewrite Hr; simpl; [exact Hu|].
    destruct (create_backend_shape _ _ _ _ _ _ Hr)
      as (p & bd & _ & _ & _ & _ & Hnone & Hb & Hbk & _ & _).
    rewrite Hbk, map_app. simpl. apply nodup_snoc; [exact Hu|].
    assert (Backend.Name b = Backend.Name bd) as ->.
    { subst b. destruct (negb (query_has r "enabled")); reflexivity. }
    exact (find_none_not_in_names _ _ Hnone).
  - destruct (update_backend_cases parse_time flt db name r) as [(? & ? & Hr) | (b & d & Hr)];
      rewrite Hr; simpl; [exact Hu|].
    destruct (update_backend_shape _ _ _ _ _ _ _ Hr)
      as (old & upd & bd & _ & _ & _ & _ & _ & Hbk & _ & _).
    rewrite Hbk, update_row_names. exact Hu.
  - destruct (delete_backend_cases flt db name r) as [(? & ? & Hr) | (d & Hr)];
      rewrite Hr; simpl; [exact Hu|].
    destruct (delete_backend_shape _ _ _ _ _ Hr) as (old & _ & Hbk & _ & _).
    rewrite Hbk, delete_row_names. exact Hu.
Qed.

(** X6, at a concrete input. *)
Lemma X6_witness :
  names_unique db_ex /\
  names_unique (snd (run (CreateBackend pt0 (req_op []
      [("name", JStr "billing"); ("addr", JStr "127.0.0.1:50059")])) no_faults db_ex)) /\
  names_unique (snd (run (UpdateBackend pt0 "account" (req_op []
      [("name", JStr "billing"); ("addr", JStr "127.0.0.1:50059")])) no_faults db_ex)) /\
  names_unique (snd (run (DeleteBackend "account" (req_op []
      [("name", JStr "billing"); ("addr", JStr "127.0.0.1:50059")])) no_faults db_ex)) /\
  names_unique (snd (run (CreateRoute pt0 (req_op []
      [("name", JStr "billing"); ("addr", JStr "127.0.0.1:50059")])) no_faults db_ex)) /\
  names_unique (snd (run (UpdateRoute pt0 "1" (req_op []
      [("name", JStr "billing"); ("addr", JStr "127.0.0.1:50059")])) no_faults db_ex)) /\
  names_unique (snd (run (DeleteRoute "1" (req_op []
      [("name", JStr "billing"); ("addr", JStr "127.0.0.1:50059")])) no_faults db_ex)).
Proof.
  assert (H : names_unique db_ex).
  { unfold names_unique; simpl. repeat constructor; set_solver. }
  split; [exact H|].
  exact (X6_backend_names_unique pt0 no_faults db_ex _ "account" "1" H).
Defined.

(** X7: a backend the create handler reports as created is what the get
    handler answers for its name right afterwards (when the lookup does
    not fail), up to [created_at] and [updated_at]: the answer of the
    create has two readings of the Go clock, the stored row the SQL
    timestamp of its [INSERT]. *)
Theorem X7_create_then_get_backend (parse_time : string -> option Z) (flt flt' : Faults)
    (db d : DB) (r : Request) (b : Backend.t) :
  run (CreateBackend parse_time r) flt db = (Respond 201 (BBackend b), d) ->
  flt' OpGetBackendByName = false ->
  run (GetBackend (Backend.Name b)) flt' d =
    (Respond 200 (BBackend (b_set_times (now db) (now db) b)), d).
Proof.
  intros Hr Hg.
  destruct (create_backend_shape _ _ _ _ _ _ Hr)
    as (p & bd & _ & _ & _ & _ & Hnone & Hb & Hbk & _ & _).
  assert (Hn : Backend.Name b = Backend.Name bd).
  { subst b. destruct (negb (query_has r "enabled")); reflexivity. }
  unfold run, GetBackend. autounfold with handlers. rewrite Hg. simpl.
  rewrite Hbk, Hn, (find_app_none _ _ _ Hnone); [reflexivity|].
  unfold MySQLStore.name_is. simpl. rewrite Hn. apply String.eqb_refl.
Qed.

(** X7, at a concrete input: creating and reading [search]. *)
Lemma X7_witness :
  run (GetBackend "search") no_faults
    (snd (run (CreateBackend pt0 (req_op []
       [("name", JStr "search"); ("addr", JStr "127.0.0.1:50053")])) no_faults db_ex)) =
  (Respond 200 (BBackend (b_set_times (now db_ex) (now db_ex)
                            (Backend.mk 3 "search" "127.0.0.1:50053" "" true 100 100))),
   snd (run (CreateBackend pt0 (req_op []
       [("name", JStr "search"); ("addr", JStr "127.0.0.1:50053")])) no_faults db_ex)).
Proof.
  apply (X7_create_then_get_backend pt0 no_faults no_faults db_ex _ (req_op []
       [("name", JStr "search"); ("addr", JStr "127.0.0.1:50053")])
       (Backend.mk 3 "search" "127.0.0.1:50053" "" true 100 100)); [|reflexivity].
  vm_compute. reflexivity.
Defined.

(** X8: on a store whose row ids are below their counters, a route the
    create handler reports as created is what the get handler answers
    for its id right afterwards (when the lookup does not fail), up to
    [created_at] and [updated_at], which the stored row takes from the
    SQL timestamp of its [INSERT]. *)
Theorem X8_create_then_get_route (parse_time : string -> option Z) (flt flt' : Faults)
    (db d : DB) (r : Request) (rt : Route.t) (idStr : string) :
  ids_ok db ->
  run (CreateRoute parse_time r) flt db = (Respond 201 (BRoute rt), d) ->
  ParseUint32 idStr = Some (Route.ID rt) ->
  flt' OpGetRouteByID = false ->
  run (GetRoute idStr) flt' d =
    (Respond 200 (BRoute (r_set_times (now db) (now db) rt)), d).
Proof.
  intros Hok Hr Hid Hg.
  destruct (create_route_shape _ _ _ _ _ _ Hr)
    as (p & rt0 & bk & _ & _ & _ & _ & _ & Hrt & Hrs & _ & _).
  assert (Hi : Route.ID rt = route_auto db).
  { subst rt. reflexivity. }
  assert (Hnone : List.find (MySQLStore.id_is (Route.ID rt)) (routes db) = None).
  { destruct (List.find (MySQLStore.id_is (Route.ID rt)) (routes db)) as [x|] eqn:Hf;
      [|reflexivity].
    exfalso. apply List.find_some in Hf as [Hin Hx].
    destruct Hok as (_ & _ & _ & Hlt & _). rewrite List.Forall_forall in Hlt.
    specialize (Hlt x Hin). unfold MySQLStore.id_is in Hx. apply Z.eqb_eq in Hx. lia. }
  unfold run, GetRoute. rewrite Hid. autounfold with handlers. rewrite Hg. simpl.
  rewrite Hrs, (find_app_none _ _ _ Hnone); [reflexivity|].
  apply Z.eqb_refl.
Qed.

(** X8, at a concrete input: creating a second route on [db_ex] and
    reading route 2. *)
Lemma X8_witness :
  run (GetRoute "2") no_faults
    (snd (run (CreateRoute pt0 (req_op [] (route_fields "account"))) no_faults db_ex)) =
  (Respond 200 (BRoute (r_set_times (now db_ex) (now db_ex)
                          (Route.mk 2 "POST" "/v1/user/login" "account" "user.v1.UserService"
                             "Login" 5000 "" true 100 100))),
   snd (run (CreateRoute pt0 (req_op [] (route_fields "account"))) no_faults db_ex)).
Proof.
  apply (X8_create_then_get_route pt0 no_faults no_faults db_ex _ (req_op [] (route_fields "account"))
           (Route.mk 2 "POST" "/v1/user/login" "account" "user.v1.UserService"
              "Login" 5000 "" true 100 100) "2");
    [exact ids_ok_db_ex | vm_compute; reflexivity | reflexivity | reflexivity].
Defined.

(** The [DeleteRoute] run on an existing row, without storage faults:
    404 when its [UPDATE] changes no row, 204 otherwise. *)
Lemma delete_route_run (flt : Faults) (db : DB) (idStr : string) (r : Request) (id : Z)
    (old : Route.t) :
  ParseUint32 idStr = Some id ->
  List.find (MySQLStore.id_is id) (routes db) = Some old ->
  flt OpGetRouteByID = false -> flt OpDeleteRoute = false ->
  (Nat.eqb (length (List.filter (fun row => MySQLStore.id_is id row &&
                                   MySQLStore.delete_route_changes (now db) row) (routes db))) 0 = true ->
   run (DeleteRoute idStr r) flt db = (HttpError 404 "route not found", db)) /\
  (Nat.eqb (length (List.filter (fun row => MySQLStore.id_is id row &&
                                   MySQLStore.delete_route_changes (now db) row) (routes db))) 0 = false ->
   fst (run (DeleteRoute idStr r) flt db) = Respond 204 BNone).
Proof.
  intros Hid Hf Hg Hd.
  unfold run, DeleteRoute. autounfold with handlers. rewrite Hid. simpl.
  rewrite Hg. simpl. rewrite Hf, Hd. unfold MySQLStore.DeleteRoute.
  split; intros Hn; rewrite Hn; simpl; [reflexivity|].
  destruct (flt OpCreateHistory); reflexivity.
Qed.

(** X9: a successful route delete keeps every route row; the get handler
    then answers the deleted route with [enabled = false] and
    [updated_at] the SQL timestamp of the delete (when the lookup does not
    fail). Deleting it again (without storage faults) answers 404 "route
    not found" while the SQL timestamp is still the one of the first
    delete, since that [UPDATE] changes no row, and 204 once it has
    moved on. *)
Theorem X9_route_soft_delete (flt flt' : Faults) (db d : DB) (idStr : string)
    (r r' : Request) :
  run (DeleteRoute idStr r) flt db = (Respond 204 BNone, d) ->
  flt' OpGetRouteByID = false ->
  exists old,
    fst (run (GetRoute idStr) flt' db) = Respond 200 (BRoute old) /\
    run (GetRoute idStr) flt' d =
      (Respond 200 (BRoute (r_set_UpdatedAt (now db) (r_set_Enabled false old))), d) /\
    length (routes d) = length (routes db) /\
    (flt' OpDeleteRoute = false ->
     fst (run (DeleteRoute idStr r') flt' d) =
       (if now d =? now db then HttpError 404 "route not found" else Respond 204 BNone)).
Proof.
  intros Hr Hg.
  destruct (delete_route_shape _ _ _ _ _ Hr) as (id & old & Hid & Hf & Hrs & _ & _).
  assert (Hf' : List.find (MySQLStore.id_is id) (routes d) =
                Some (r_set_UpdatedAt (now db) (r_set_Enabled false old))).
  { rewrite Hrs, find_map_update, Hf by reflexivity. reflexivity. }
  exists old. split; [|split; [|split]].
  - unfold run, GetRoute. rewrite Hid. autounfold with handlers. rewrite Hg. simpl.
    rewrite Hf. reflexivity.
  - unfold run, GetRoute. rewrite Hid. autounfold with handlers. rewrite Hg. simpl.
    rewrite Hf'. reflexivity.
  - rewrite Hrs. apply length_map_id.
  - intros Hd.
    destruct (delete_route_run _ _ _ r' _ _ Hid Hf' Hg Hd) as [H404 H204].
    destruct (now d =? now db) eqn:Ht.
    + apply Z.eqb_eq in Ht. rewrite H404; [reflexivity|].
      rewrite Hrs, Ht, filter_map_update_nil; [reflexivity | reflexivity |].
      intros x _. unfold MySQLStore.delete_route_changes. simpl. rewrite Z.eqb_refl. reflexivity.
    + apply Z.eqb_neq in Ht. apply H204.
      rewrite Hrs. apply (filter_map_update_all _ _ _ _ old Hf); [reflexivity|].
      intros x _. unfold MySQLStore.delete_route_changes. simpl.
      rewrite Bool.negb_true_iff, Z.eqb_neq. intros He. apply Ht. symmetry. exact He.
Qed.

(** X9, at a concrete input: deleting route 1 of [db_ex]; the second
    delete runs within the same second and answers 404. *)
Lemma X9_witness :
  exists old,
    fst (run (GetRoute "1") no_faults db_ex) = Respond 200 (BRoute old) /\
    run (GetRoute "1") no_faults (snd (run (DeleteRoute "1" (req_op [] [])) no_faults db_ex)) =
      (Respond 200 (BRoute (r_set_UpdatedAt (now db_ex) (r_set_Enabled false old))),
       snd (run (DeleteRoute "1" (req_op [] [])) no_faults db_ex)) /\
    length (routes (snd (run (DeleteRoute "1" (req_op [] [])) no_faults db_ex))) =
      length (routes db_ex) /\
    (no_faults OpDeleteRoute = false ->
     fst (run (DeleteRoute "1" (req_op [] [])) no_faults
            (snd (run (DeleteRoute "1" (req_op [] [])) no_faults db_ex))) =
       (if now (snd (run (DeleteRoute "1" (req_op [] [])) no_faults db_ex)) =? now db_ex
        then HttpError 404 "route not found" else Respond 204 BNone)).
Proof.
  apply (X9_route_soft_delete no_faults no_faults db_ex _ "1" (req_op [] []) (req_op [] []));
    [vm_compute; reflexivity | reflexivity].
Defined.

(** X10: creating a backend whose name is taken answers 409 "backend
    already exists" and leaves the store as it was (when the lookup does
    not fail). *)
Theorem X10_duplicate_backend_409 (parse_time : string -> option Z) (flt : Faults) (db : DB)
    (r : Request) (p : object) (bd old : Backend.t) :
  raw_body r = Some p ->
  decode_backend parse_time p = Some bd ->
  Backend.Name bd <> "" -> Backend.Addr bd <> "" ->
  List.find (MySQLStore.name_is (Backend.Name bd)) (backends db) = Some old ->
  flt OpGetBackendByName = false ->
  run (CreateBackend parse_time r) flt db = (HttpError 409 "backend already exists", db).
Proof.
  intros Hb Hd Hn Ha Hf Hg.
  apply String.eqb_neq in Hn, Ha.
  unfold run, CreateBackend. autounfold with handlers. rewrite Hb, Hd, Hn, Ha. simpl.
  rewrite Hg. simpl. rewrite Hf. reflexivity.
Qed.

(** X10, at a concrete input: a second [account]. *)
Lemma X10_witness :
  run (CreateBackend pt0 (req_op [] (("name", JStr "account") :: upd_addr_only))) no_faults db_ex =
  (HttpError 409 "backend already exists", db_ex).
Proof.
  apply (X10_duplicate_backend_409 pt0 no_faults db_ex _
           (("name", JStr "account") :: upd_addr_only)
           (Backend.mk 0 "account" "127.0.0.1:9999" "" false 0 0) acct);
    first [reflexivity | vm_compute; reflexivity | discriminate].
Defined.



Lemma insert_by_perm {A} (le : A -> A -> bool) (x : A) (l : list A) :
  Permutation (MySQLStore.insert_by le x l) (x :: l).
Proof.
  induction l as [|y l IH]; simpl; [reflexivity|].
  destruct (le x y); [reflexivity|].
  rewrite IH. apply perm_swap.
Qed.

Lemma sort_by_perm {A} (le : A -> A -> bool) (l : list A) :
  Permutation (MySQLStore.sort_by le l) l.
Proof.
  induction l as [|x l IH]; simpl; [reflexivity|].
  rewrite insert_by_perm, IH. reflexivity.
Qed.

Section Sorting.
Context {A : Type} (le : A -> A -> bool).
Hypothesis le_total : forall a b, le a b = true \/ le b a = true.

Lemma insert_by_hdrel (y x : A) (l : list A) :
  HdRel (fun a b => le a b = true) y l -> le y x = true ->
  HdRel (fun a b => le a b = true) y (MySQLStore.insert_by le x l).
Proof.
  intros Hh Hyx. destruct l as [|z l]; simpl; [constructor; exact Hyx|].
  destruct (le x z); constructor; [exact Hyx|]. inversion Hh; assumption.
Qed.

Lemma insert_by_sorted (x : A) (l : list A) :
  Sorted (fun a b => le a b = true) l ->
  Sorted (fun a b => le a b = true) (MySQLStore.insert_by le x l).
Proof.
  induction l as [|y l IH]; simpl; intros Hs; [repeat constructor|].
  destruct (le x y) eqn:Hxy; [constructor; [exact Hs | constructor; exact Hxy]|].
  apply Sorted_inv in Hs as [Hs Hh]. constructor; [exact (IH Hs)|].
  apply insert_by_hdrel; [exact Hh|].
  destruct (le_total x y) as [H|H]; [congruence | exact H].
Qed.

Lemma sort_by_sorted (l : list A) :
  Sorted (fun a b => le a b = true) (MySQLStore.sort_by le l).
Proof.
  induction l as [|x l IH]; simpl; [constructor|]. apply insert_by_sorted, IH.
Qed.
End Sorting.

Lemma route_order_total (coll_le : string -> string -> bool) :
  (forall x y, coll_le x y = true \/ coll_le y x = true) ->
  forall a b, MySQLStore.route_order coll_le a b = true \/
              MySQLStore.route_order coll_le b a = true.
Proof.
  intros Htot a b. unfold MySQLStore.route_order.
  rewrite (andb_comm (coll_le (Route.HTTPMethod b) (Route.HTTPMethod a))).
  destruct (coll_le (Route.HTTPMethod a) (Route.HTTPMethod b) &&
            coll_le (Route.HTTPMethod b) (Route.HTTPMethod a)) eqn:Hc.
  - apply Htot.
  - apply Htot.
Qed.

Lemma enabled_param_cases (r : Request) :
  query_get r "enabled" = "" \/ ParseBool (query_get r "enabled") <> None ->
  forall flt db, enabled_param r flt db = (inr (ParseBool (query_get r "enabled")), db).
Proof.
  intros Hq flt db. unfold enabled_param.
  destruct (String.eqb (query_get r "enabled") "") eqn:He.
  - apply String.eqb_eq in He. rewrite He. reflexivity.
  - destruct Hq as [Hq|Hq]; [apply String.eqb_neq in He; contradiction|].
    destruct (ParseBool (query_get r "enabled")); [reflexivity | contradiction].
Qed.

Lemma encode_slice_null {A} (l : list A) : encode_slice l = JSONNull <-> l = [].
Proof. destruct l; simpl; split; congruence. Qed.

(** X12: the list handlers refuse a non-empty [?enabled=] that
    [ParseBool] rejects with 400 "invalid enabled parameter"; otherwise,
    when the query does not fail, they answer the rows whose [enabled]
    matches the parameter (all rows for an empty one), each row once,
    ordered by the collation ([name] for backends, [http_method] then
    [http_pattern] for routes), encoded as [null] exactly when no row
    matches; the store is left as it was. *)
Theorem X12_list_handlers (coll_le : string -> string -> bool) (flt : Faults) (db : DB)
    (r : Request) :
  (forall x y, coll_le x y = true \/ coll_le y x = true) ->
  (query_get r "enabled" <> "" -> ParseBool (query_get r "enabled") = None ->
   ListBackends coll_le r flt db = (inl (HttpError 400 "invalid enabled parameter"), db) /\
   ListRoutes coll_le r flt db = (inl (HttpError 400 "invalid enabled parameter"), db)) /\
  ((query_get r "enabled" = "" \/ ParseBool (query_get r "enabled") <> None) ->
   (flt OpGetBackends = false ->
    exists l, ListBackends coll_le r flt db = (inr (encode_slice l), db) /\
      Permutation l (List.filter (fun b => MySQLStore.enabled_is
                      (ParseBool (query_get r "enabled")) (Backend.Enabled b)) (backends db)) /\
      Sorted (fun a b => coll_le (Backend.Name a) (Backend.Name b) = true) l /\
      (encode_slice l = JSONNull <->
       List.filter (fun b => MySQLStore.enabled_is
                      (ParseBool (query_get r "enabled")) (Backend.Enabled b)) (backends db) = [])) /\
   (flt OpGetRoutes = false ->
    exists l, ListRoutes coll_le r flt db = (inr (encode_slice l), db) /\
      Permutation l (List.filter (fun rt => MySQLStore.enabled_is
                      (ParseBool (query_get r "enabled")) (Route.Enabled rt)) (routes db)) /\
      Sorted (fun a b => MySQLStore.route_order coll_le a b = true) l /\
      (encode_slice l = JSONNull <->
       List.filter (fun rt => MySQLStore.enabled_is
                      (ParseBool (query_get r "enabled")) (Route.Enabled rt)) (routes db) = []))).
Proof.
  intros Htot. split.
  - intros Hne Hp. apply String.eqb_neq in Hne.
    unfold ListBackends, ListRoutes, enabled_param, bind_M. rewrite Hne, Hp.
    split; reflexivity.
  - intros Hq. split; intros Hg.
    + eexists. unfold ListBackends, bind_M. rewrite (enabled_param_cases r Hq flt db).
      unfold store_GetBackends, call. rewrite Hg. simpl.
      split; [reflexivity|]. split; [apply sort_by_perm|]. split.
      * apply (sort_by_sorted (fun a b => coll_le (Backend.Name a) (Backend.Name b))).
        intros a b. apply Htot.
      * rewrite encode_slice_null. split; intros H.
        -- apply Permutation_nil. rewrite <- H. apply sort_by_perm.
        -- rewrite H. reflexivity.
    + eexists. unfold ListRoutes, bind_M. rewrite (enabled_param_cases r Hq flt db).
      unfold store_GetRoutes, call. rewrite Hg. simpl.
      split; [reflexivity|]. split; [apply sort_by_perm|]. split.
      * apply sort_by_sorted, route_order_total, Htot.
      * rewrite encode_slice_null. split; intros H.
        -- apply Permutation_nil. rewrite <- H. apply sort_by_perm.
        -- rewrite H. reflexivity.
Qed.

(** X12, at concrete inputs: [?enabled=yes], and [?enabled=true] on
    [db_ex] with the byte order of strings. *)
Lemma X12_witness :
  (ListBackends String.leb (req_op [("enabled", "yes")] []) no_faults db_ex =
     (inl (HttpError 400 "invalid enabled parameter"), db_ex) /\
   ListRoutes String.leb (req_op [("enabled", "yes")] []) no_faults db_ex =
     (inl (HttpError 400 "invalid enabled parameter"), db_ex)) /\
  (exists l, ListBackends String.leb (req_op [("enabled", "true")] []) no_faults db_ex =
               (inr (encode_slice l), db_ex) /\
     Permutation l (List.filter (fun b => MySQLStore.enabled_is (Some true) (Backend.Enabled b))
                     (backends db_ex)) /\
     Sorted (fun a b => String.leb (Backend.Name a) (Backend.Name b) = true) l /\
     (encode_slice l = JSONNull <->
      List.filter (fun b => MySQLStore.enabled_is (Some true) (Backend.Enabled b))
        (backends db_ex) = [])).
Proof.
  split.
  - apply (X12_list_handlers String.leb no_faults db_ex (req_op [("enabled", "yes")] [])
             String.leb_total); vm_compute; [discriminate | reflexivity].
  - apply (X12_list_handlers String.leb no_faults db_ex (req_op [("enabled", "true")] [])
             String.leb_total); [right; vm_compute; discriminate | reflexivity].
Defined.

Lemma scan_origins_result (o : string) (l : list string) :
  scan_origins o l = "" \/ (scan_origins o l = "*" /\ In "*" l) \/
  (scan_origins o l = o /\ In o l).
Proof.
  induction l as [|a l IH]; simpl; [left; reflexivity|].
  destruct (String.eqb a "*") eqn:Ha; [apply String.eqb_eq in Ha; subst; right; left; auto|].
  destruct (String.eqb a o) eqn:Hb; [apply String.eqb_eq in Hb; subst; right; right; auto|].
  destruct IH as [H|[[H1 H2]|[H1 H2]]]; auto.
Qed.

Lemma scan_origins_found (o : string) (l : list string) :
  o <> "" -> In o l \/ In "*" l -> scan_origins o l <> "".
Proof.
  intros Ho. induction l as [|a l IH]; simpl; [intros [[]|[]]|].
  intros Hin.
  destruct (String.eqb a "*") eqn:Ha; [discriminate|].
  destruct (String.eqb a o) eqn:Hb; [exact Ho|].
  apply String.eqb_neq in Ha, Hb. apply IH.
  destruct Hin as [[H|H]|[H|H]]; try congruence; auto.
Qed.

(** X13: [determineAllowedOrigin] allows nothing for a request without an
    [Origin]; for a request with one it allows something exactly when the
    origin or ["*"] is in the list, and what it allows is either ["*"],
    from the list, or the request's own origin, from the list. *)
Theorem X13_determine_allowed_origin (requestOrigin : string) (allowedOrigins : list string) :
  (requestOrigin = "" -> determineAllowedOrigin requestOrigin allowedOrigins = "") /\
  (requestOrigin <> "" ->
   (determineAllowedOrigin requestOrigin allowedOrigins <> "" <->
    In requestOrigin allowedOrigins \/ In "*" allowedOrigins)) /\
  (determineAllowedOrigin requestOrigin allowedOrigins = "" \/
   (determineAllowedOrigin requestOrigin allowedOrigins = "*" /\ In "*" allowedOrigins) \/
   (determineAllowedOrigin requestOrigin allowedOrigins = requestOrigin /\
    In requestOrigin allowedOrigins)).
Proof.
  unfold determineAllowedOrigin.
  assert (Hstar : Nat.eqb (length allowedOrigins) 1 &&
                  String.eqb (nth 0 allowedOrigins "") "*" = true -> In "*" allowedOrigins).
  { intros H. apply andb_prop in H as [_ H]. apply String.eqb_eq in H.
    destruct allowedOrigins as [|a l]; simpl in *; [discriminate|left; exact H]. }
  split; [|split].
  - intros ->. reflexivity.
  - intros Ho. apply String.eqb_neq in Ho as Ho'. rewrite Ho'.
    destruct (Nat.eqb (length allowedOrigins) 1 &&
              String.eqb (nth 0 allowedOrigins "") "*") eqn:Hc.
    + split; [intros _; right; exact (Hstar eq_refl) | discriminate].
    + split; [|apply scan_origins_found; exact Ho].
      intros Hne. destruct (scan_origins_result requestOrigin allowedOrigins)
        as [H|[[_ H]|[_ H]]]; [contradiction | right; exact H | left; exact H].
  - destruct (String.eqb requestOrigin "") eqn:Ho; [left; reflexivity|].
    destruct (Nat.eqb (length allowedOrigins) 1 &&
              String.eqb (nth 0 allowedOrigins "") "*") eqn:Hc.
    + right; left. split; [reflexivity | exact (Hstar eq_refl)].
    + apply scan_origins_result.
Qed.

Lemma find_filter_out {A} (P Q : A -> bool) (l : list A) :
  (forall x, Q x = false -> P x = false) ->
  List.find P (List.filter Q l) = List.find P l.
Proof.
  intros H. induction l as [|x l IH]; simpl; [reflexivity|].
  destruct (Q x) eqn:Hq; simpl.
  - destruct (P x); [reflexivity | exact IH].
  - rewrite (H x Hq). exact IH.
Qed.

Lemma find_snoc {A} (P : A -> bool) (l : list A) (x : A) :
  List.find P (l ++ [x]) =
  match List.find P l with Some y => Some y | None => if P x then Some x else None end.
Proof.
  induction l as [|y l IH]; simpl; [reflexivity|]. destruct (P y); [reflexivity | exact IH].
Qed.

Lemma find_filter_neg {A} (P : A -> bool) (l : list A) :
  List.find P (List.filter (fun x => negb (P x)) l) = None.
Proof.
  induction l as [|x l IH]; simpl; [reflexivity|].
  destruct (P x) eqn:Hp; simpl; [exact IH|]. rewrite Hp. exact IH.
Qed.

Lemma header_lookup_set_same (k v : string) (h : list (string * string)) :
  header_lookup (header_Set k v h) k = Some v.
Proof.
  unfold header_lookup, header_Set.
  rewrite find_snoc, (find_filter_neg (fun kv => String.eqb (fst kv) k)).
  simpl. rewrite String.eqb_refl. reflexivity.
Qed.

Lemma header_lookup_set_other (k v k' : string) (h : list (string * string)) :
  k <> k' -> header_lookup (header_Set k v h) k' = header_lookup h k'.
Proof.
  intros Hk. unfold header_lookup, header_Set.
  rewrite find_snoc, find_filter_out.
  - destruct (List.find (fun kv => String.eqb (fst kv) k') h); [reflexivity|].
    simpl. apply String.eqb_neq in Hk. rewrite Hk. reflexivity.
  - intros x Hx. apply negb_false_iff, String.eqb_eq in Hx. rewrite Hx.
    apply String.eqb_neq. exact Hk.
Qed.

Ltac header_lookups :=
  repeat first [ rewrite header_lookup_set_same
               | rewrite header_lookup_set_other by discriminate ].

(** X14: the CORS middleware answers an [OPTIONS] request itself with
    200 and passes every other request on unchanged; in both cases it
    sets [Access-Control-Allow-Origin] to the allowed origin when there is
    one (else leaves that header as it was),
    [Access-Control-Allow-Methods] and [Access-Control-Allow-Headers] to
    the configured lists, [Access-Control-Allow-Credentials] to ["true"]
    when [CORS_ALLOW_CREDENTIALS] is ["true"] or unset (else leaves it as
    it was), and [Access-Control-Max-Age] to ["3600"]. *)
Theorem X14_cors_middleware (env : string -> string) (w : list (string * string))
    (r : HttpRequest) :
  let res := CORSMiddleware env w r in
  let allowedOrigin :=
    determineAllowedOrigin (header_Get (Header r) "Origin")
      (map TrimSpace (split_comma (getEnv env "CORS_ALLOWED_ORIGINS" "*"))) in
  (Method r = "OPTIONS" -> res = Preflight 200 (cors_headers res)) /\
  (Method r <> "OPTIONS" -> res = Forward (cors_headers res) r) /\
  header_lookup (cors_headers res) "Access-Control-Allow-Origin" =
    (if String.eqb allowedOrigin "" then header_lookup w "Access-Control-Allow-Origin"
     else Some allowedOrigin) /\
  header_lookup (cors_headers res) "Access-Control-Allow-Methods" =
    Some (getEnv env "CORS_ALLOWED_METHODS" "GET,POST,PUT,DELETE,OPTIONS,PATCH") /\
  header_lookup (cors_headers res) "Access-Control-Allow-Headers" =
    Some (getEnv env "CORS_ALLOWED_HEADERS" "Content-Type,Authorization,X-Requested-With") /\
  header_lookup (cors_headers res) "Access-Control-Allow-Credentials" =
    (if String.eqb (getEnv env "CORS_ALLOW_CREDENTIALS" "true") "true" then Some "true"
     else header_lookup w "Access-Control-Allow-Credentials") /\
  header_lookup (cors_headers res) "Access-Control-Max-Age" = Some "3600".
Proof.
  intros res allowedOrigin. subst res allowedOrigin. unfold CORSMiddleware.
  destruct (String.eqb (Method r) "OPTIONS") eqn:Hm; simpl.
  - apply String.eqb_eq in Hm.
    split; [intros _; reflexivity|]. split; [intros Hn; contradiction|].
    header_lookups.
    destruct (String.eqb (determineAllowedOrigin _ _) ""); simpl; header_lookups;
      destruct (String.eqb (getEnv env "CORS_ALLOW_CREDENTIALS" "true") "true"); simpl;
      header_lookups; repeat split; reflexivity.
  - apply String.eqb_neq in Hm.
    split; [intros Ho; contradiction|]. split; [intros _; reflexivity|].
    header_lookups.
    destruct (String.eqb (determineAllowedOrigin _ _) ""); simpl; header_lookups;
      destruct (String.eqb (getEnv env "CORS_ALLOW_CREDENTIALS" "true") "true"); simpl;
      header_lookups; repeat split; reflexivity.
Qed.

(** X15: with [CORS_ALLOWED_ORIGINS] and [CORS_ALLOW_CREDENTIALS] unset,
    every request that carries an [Origin] gets both
    [Access-Control-Allow-Origin: *] and
    [Access-Control-Allow-Credentials: true]: the wildcard is not
    withheld when credentials are allowed. *)
Theorem X15_default_wildcard_with_credentials (env : string -> string)
    (w : list (string * string)) (r : HttpRequest) :
  env "CORS_ALLOWED_ORIGINS" = "" ->
  env "CORS_ALLOW_CREDENTIALS" = "" ->
  header_Get (Header r) "Origin" <> "" ->
  header_lookup (cors_headers (CORSMiddleware env w r)) "Access-Control-Allow-Origin" = Some "*" /\
  header_lookup (cors_headers (CORSMiddleware env w r)) "Access-Control-Allow-Credentials" =
    Some "true".
Proof.
  intros Ho Hc Horig.
  assert (Hl : map TrimSpace (split_comma "*") = ["*"]) by (vm_compute; reflexivity).
  assert (Hd : determineAllowedOrigin (header_Get (Header r) "Origin") ["*"] = "*").
  { unfold determineAllowedOrigin. apply String.eqb_neq in Horig. rewrite Horig. reflexivity. }
  assert (Hgo : getEnv env "CORS_ALLOWED_ORIGINS" "*" = "*") by (unfold getEnv; rewrite Ho; reflexivity).
  assert (Hgc : getEnv env "CORS_ALLOW_CREDENTIALS" "true" = "true")
    by (unfold getEnv; rewrite Hc; reflexivity).
  unfold CORSMiddleware. rewrite Hgo, Hgc, Hl, Hd. simpl.
  destruct (String.eqb (Method r) "OPTIONS"); simpl; header_lookups; split; reflexivity.
Qed.

(** X15, at a concrete input: an empty environment and a request from
    [https://example.com]. *)
Lemma X15_witness :
  header_lookup (cors_headers (CORSMiddleware (fun _ => "") []
      (mkHttpRequest "GET" [("Origin", "https://example.com")])))
    "Access-Control-Allow-Origin" = Some "*" /\
  header_lookup (cors_headers (CORSMiddleware (fun _ => "") []
      (mkHttpRequest "GET" [("Origin", "https://example.com")])))
    "Access-Control-Allow-Credentials" = Some "true".
Proof.
  apply (X15_default_wildcard_with_credentials (fun _ => "") []
           (mkHttpRequest "GET" [("Origin", "https://example.com")]));
    [reflexivity | reflexivity | vm_compute; discriminate].
Defined.

(** X16: for a backend name with no row, the get, update and delete
    handlers answer 404 "backend not found" and leave the store as it
    was; when the lookup itself fails they answer 500 "internal server
    error", with the store as it was. *)
Theorem X16_backend_missing_or_fault (parse_time : string -> option Z) (flt : Faults)
    (db : DB) (name : string) (r : Request) :
  (List.find (MySQLStore.name_is name) (backends db) = None ->
   flt OpGetBackendByName = false ->
   run (GetBackend name) flt db = (HttpError 404 "backend not found", db) /\
   run (UpdateBackend parse_time name r) flt db = (HttpError 404 "backend not found", db) /\
   run (DeleteBackend name r) flt db = (HttpError 404 "backend not found", db)) /\
  (flt OpGetBackendByName = true ->
   run (GetBackend name) flt db = (HttpError 500 "internal server error", db) /\
   run (UpdateBackend parse_time name r) flt db = (HttpError 500 "internal server error", db) /\
   run (DeleteBackend name r) flt db = (HttpError 500 "internal server error", db)).
Proof.
  split; intros Hf; [intros Hg|];
    unfold run, GetBackend, UpdateBackend, DeleteBackend; autounfold with handlers;
    rewrite ?Hg, ?Hf; simpl; rewrite ?Hf; split_conj; reflexivity.
Qed.

(** X16, at a concrete input: the name [search], absent from [db_ex]. *)
Lemma X16_witness :
  (run (GetBackend "search") no_faults db_ex = (HttpError 404 "backend not found", db_ex) /\
   run (UpdateBackend pt0 "search" (req_op [] upd_addr_only)) no_faults db_ex =
     (HttpError 404 "backend not found", db_ex) /\
   run (DeleteBackend "search" (req_op [] upd_addr_only)) no_faults db_ex =
     (HttpError 404 "backend not found", db_ex)) /\
  (run (GetBackend "search") (fun _ => true) db_ex =
     (HttpError 500 "internal server error", db_ex) /\
   run (UpdateBackend pt0 "search" (req_op [] upd_addr_only)) (fun _ => true) db_ex =
     (HttpError 500 "internal server error", db_ex) /\
   run (DeleteBackend "search" (req_op [] upd_addr_only)) (fun _ => true) db_ex =
     (HttpError 500 "internal server error", db_ex)).
Proof.
  split.
  - apply (proj1 (X16_backend_missing_or_fault pt0 no_faults db_ex "search" (req_op [] upd_addr_only)));
      reflexivity.
  - apply (proj2 (X16_backend_missing_or_fault pt0 (fun _ => true) db_ex "search"
                    (req_op [] upd_addr_only))); reflexivity.
Defined.

(** X17: the get, update and delete route handlers answer 400 "invalid
    route id" for an id that is not a 32-bit unsigned decimal, without
    touching the store; for a valid id with no row they answer 404
    "route not found", and when the lookup fails 500 "internal server
    error", with the store as it was. *)
Theorem X17_route_bad_id_missing_or_fault (parse_time : string -> option Z) (flt : Faults)
    (db : DB) (idStr : string) (r : Request) :
  (ParseUint32 idStr = None ->
   run (GetRoute idStr) flt db = (HttpError 400 "invalid route id", db) /\
   run (UpdateRoute parse_time idStr r) flt db = (HttpError 400 "invalid route id", db) /\
   run (DeleteRoute idStr r) flt db = (HttpError 400 "invalid route id", db)) /\
  (forall id, ParseUint32 idStr = Some id ->
   List.find (MySQLStore.id_is id) (routes db) = None ->
   flt OpGetRouteByID = false ->
   run (GetRoute idStr) flt db = (HttpError 404 "route not found", db) /\
   run (UpdateRoute parse_time idStr r) flt db = (HttpError 404 "route not found", db) /\
   run (DeleteRoute idStr r) flt db = (HttpError 404 "route not found", db)) /\
  (forall id, ParseUint32 idStr = Some id ->
   flt OpGetRouteByID = true ->
   run (GetRoute idStr) flt db = (HttpError 500 "internal server error", db) /\
   run (UpdateRoute parse_time idStr r) flt db = (HttpError 500 "internal server error", db) /\
   run (DeleteRoute idStr r) flt db = (HttpError 500 "internal server error", db)).
Proof.
  split; [|split].
  - intros Hid. unfold run, GetRoute, UpdateRoute, DeleteRoute. rewrite Hid.
    autounfold with handlers. split_conj; reflexivity.
  - intros id Hid Hf Hg. unfold run, GetRoute, UpdateRoute, DeleteRoute. rewrite Hid.
    autounfold with handlers. rewrite Hg. simpl. rewrite Hf. split_conj; reflexivity.
  - intros id Hid Hg. unfold run, GetRoute, UpdateRoute, DeleteRoute. rewrite Hid.
    autounfold with handlers. rewrite Hg. split_conj; reflexivity.
Qed.

(** X17, at concrete inputs: the id [abc], route 7 (absent from
    [db_ex]), and route 1 with a failing lookup. *)
Lemma X17_witness :
  run (GetRoute "abc") no_faults db_ex = (HttpError 400 "invalid route id", db_ex) /\
  run (DeleteRoute "7" (req_op [] [])) no_faults db_ex = (HttpError 404 "route not found", db_ex) /\
  run (UpdateRoute pt0 "1" (req_op [] [])) (fun _ => true) db_ex =
    (HttpError 500 "internal server error", db_ex).
Proof.
  destruct (X17_route_bad_id_missing_or_fault pt0 no_faults db_ex "abc" (req_op [] []))
    as [H1 _].
  destruct (X17_route_bad_id_missing_or_fault pt0 no_faults db_ex "7" (req_op [] []))
    as [_ [H2 _]].
  destruct (X17_route_bad_id_missing_or_fault pt0 (fun _ => true) db_ex "1" (req_op [] []))
    as [_ [_ H3]].
  split; [apply H1; vm_compute; reflexivity|]. split.
  - apply (H2 7); vm_compute; reflexivity.
  - apply (H3 1); vm_compute; reflexivity.
Defined.

(** X18: the model of [strings.Split(s, ",")] never gives an empty list,
    no piece contains a comma, and joining the pieces with commas gives
    back [s]. *)
Theorem X18_split_comma_round_trip (s : string) :
  split_comma s <> [] /\
  List.Forall (fun piece => ~ In ","%char (list_ascii_of_string piece)) (split_comma s) /\
  String.concat "," (split_comma s) = s.
Proof.
  induction s as [|c s IH]; simpl.
  - split; [discriminate|]. split; [repeat constructor; simpl; tauto | reflexivity].
  - destruct IH as (Hne & Hf & Hc).
    destruct (Ascii.eqb c ","%char) eqn:Hcomma.
    + apply Ascii.eqb_eq in Hcomma. subst c.
      split; [discriminate|]. split; [constructor; [simpl; tauto | exact Hf]|].
      destruct (split_comma s) as [|p ps]; [contradiction|].
      simpl. rewrite <- Hc. reflexivity.
    + apply Ascii.eqb_neq in Hcomma.
      destruct (split_comma s) as [|p ps]; [contradiction|].
      split; [discriminate|].
      apply List.Forall_cons_iff in Hf as [Hp Hps].
      split; [constructor; [simpl; intros [H|H]; [congruence | exact (Hp H)] | exact Hps]|].
      rewrite <- Hc. destruct ps; reflexivity.
Qed.
